(** * Render passes of Falcor-Experiments: FocalGuiding, GuidedRayViz, MyTestPass

    A shallow embedding of the three render passes
    ([Source/RenderPasses/FocalGuiding/FocalGuiding.cpp],
    [Source/RenderPasses/FocalGuiding/GuidedRayViz.cpp],
    [Source/RenderPasses/MyTestPass/MyTestPass.cpp]) and the properties of
    their [setScene]/[execute] life cycle.

    Every pass is a record of its member variables; a member function is a
    computation in a small monad that threads the members, collects the calls
    the pass makes into the host (clears, warnings, draws, dispatches) as a
    trace, and ends by returning, by throwing, or by a fault (null
    dereference, failed assertion, index out of range).  Host objects
    ([ref<T>]) carry the identity the device gave them at creation, so that
    "the same object" and "a new object" can be told apart. *)

From Stdlib Require Import NArith Floats.PrimFloat.
From stdpp Require Import base strings list gmap.

Local Open Scope N_scope.

(** ** Host objects *)

(** Identity of a host object: what a [ref<T>] points to. *)
Definition ObjId := nat.

(** [ref<Device>]: the device hands out the identity of every object created
    through it; consecutive creations get consecutive identities. *)
Record Device := { next_id : ObjId }.

Definition Texture := ObjId.
Definition Buffer := ObjId.

Definition float3 : Type := float * float * float.
Definition float4 : Type := float * float * float * float.

(** The literal [0.9f]: the binary32 number nearest to 0.9, which is
    15099494 / 2^24.  ([0.5f], [1.0f] and [0.0f] are exact.) *)
Definition f32_0_9 : float := 0x1.ccccccp-1%float.

(** [DefineList]: shader defines, a map from names to values. *)
Abbreviation DefineList := (gmap string string).

(** [DefineList::add(const DefineList&)] / [Program::addDefines]: every define
    of [dl] is set, overriding a define of the same name; the others stay. *)
Definition addDefines (dl : DefineList) (defines : DefineList) : DefineList :=
  dl ∪ defines.

Inductive EntryPointGroup :=
| RayGen (raygen : string)
| Miss (miss : string)
| HitGroup (closestHit anyHit : string)
| Graphics (vs ps : string).

Record ProgramDesc := {
  shaderModules : list string;
  shaderLibraries : list string;
  maxPayloadSize : N;
  maxAttributeSize : N;
  maxTraceRecursionDepth : N;
  entryPointGroups : list EntryPointGroup
}.

Definition emptyDesc : ProgramDesc :=
  {| shaderModules := []; shaderLibraries := []; maxPayloadSize := 0;
     maxAttributeSize := 0; maxTraceRecursionDepth := 0; entryPointGroups := [] |}.

Definition addShaderModules (ms : list string) (d : ProgramDesc) : ProgramDesc :=
  let '(Build_ProgramDesc modules libraries payload attribute depth groups) := d in
  Build_ProgramDesc (modules ++ ms) libraries payload attribute depth groups.

Definition addShaderLibrary (path : string) (d : ProgramDesc) : ProgramDesc :=
  let '(Build_ProgramDesc modules libraries payload attribute depth groups) := d in
  Build_ProgramDesc modules (libraries ++ [path]) payload attribute depth groups.

Definition setMaxPayloadSize (n : N) (d : ProgramDesc) : ProgramDesc :=
  let '(Build_ProgramDesc modules libraries _ attribute depth groups) := d in
  Build_ProgramDesc modules libraries n attribute depth groups.

Definition setMaxAttributeSize (n : N) (d : ProgramDesc) : ProgramDesc :=
  let '(Build_ProgramDesc modules libraries payload _ depth groups) := d in
  Build_ProgramDesc modules libraries payload n depth groups.

Definition setMaxTraceRecursionDepth (n : N) (d : ProgramDesc) : ProgramDesc :=
  let '(Build_ProgramDesc modules libraries payload attribute _ groups) := d in
  Build_ProgramDesc modules libraries payload attribute n groups.

(** [desc.addRayGen], [desc.addMiss], [desc.addHitGroup]: the group is
    appended and its index is the shader id handed back. *)
Definition addEntryPointGroup (g : EntryPointGroup) (d : ProgramDesc) : ProgramDesc * nat :=
  let '(Build_ProgramDesc modules libraries payload attribute depth groups) := d in
  (Build_ProgramDesc modules libraries payload attribute depth (groups ++ [g]), length groups).

(** [Program::createGraphics(pDevice, path, vsEntry, psEntry)]: the
    description it builds. *)
Definition graphicsDesc (path vsEntry psEntry : string) : ProgramDesc :=
  fst (addEntryPointGroup (Graphics vsEntry psEntry) (addShaderLibrary path emptyDesc)).

(** A [Program] object.  [addDefines] and [setTypeConformances] change it in
    place: the identity stays, the contents change. *)
Record Program := {
  prog_id : ObjId;
  prog_desc : ProgramDesc;
  prog_defines : DefineList;
  prog_typeConformances : list string
}.

Definition Program_addDefines (dl : DefineList) (p : Program) : Program :=
  let '(Build_Program id desc defines conformances) := p in
  Build_Program id desc (addDefines dl defines) conformances.

Definition Program_setTypeConformances (tc : list string) (p : Program) : Program :=
  let '(Build_Program id desc defines _) := p in
  Build_Program id desc defines tc.

(** What [Program::getReflector] exposes of a program: the program it
    reflects and the defines of the version it was compiled with. *)
Record ProgramReflection := {
  refl_program : ObjId;
  refl_defines : DefineList
}.

Definition getReflector (p : Program) : ProgramReflection :=
  {| refl_program := prog_id p; refl_defines := prog_defines p |}.

(** Values a pass assigns to shader variables. *)
Inductive VarValue :=
| VUInt (n : N)
| VFloat3 (v : float3)
| VFloat4 (v : float4)
| VTexture (t : option Texture)
| VBuffer (b : option Buffer).

(** [ProgramVars]: the binding slots of one program; [var["a"]["b"] = v]
    stores [v] under the path ["a"; "b"]. *)
Record ProgramVars := {
  vars_id : ObjId;
  vars_reflector : ProgramReflection;
  vars_bindings : gmap (list string) VarValue
}.

Definition ProgramVars_create (id : ObjId) (r : ProgramReflection) : ProgramVars :=
  {| vars_id := id; vars_reflector := r; vars_bindings := ∅ |}.

Definition ProgramVars_set (path : list string) (v : VarValue) (pv : ProgramVars) : ProgramVars :=
  let '(Build_ProgramVars id reflector bindings) := pv in
  Build_ProgramVars id reflector (<[path := v]> bindings).

(** [Scene::GeometryType]: the host's enumeration is not among the sources;
    these are the two members the passes name. *)
Inductive GeometryType := TriangleMesh | Custom.

Record AABB := { minPoint : float3; maxPoint : float3 }.
Record Camera := { getApertureRadius : float }.
Record RenderSettings := { useEmissiveLights : bool }.

(** What the passes observe of a scene through its accessors.  The scene is
    owned by the host and changes between frames; a pass keeps a reference
    (an identity) and reads the current contents at every call. *)
Record Scene := {
  getUpdates : N;
  getRenderSettings : RenderSettings;
  getCamera : Camera;
  getSceneBounds : AABB;
  hasGeometryType : GeometryType -> bool;
  getGeometryCount : N;
  getGeometryIDs : GeometryType -> list N;
  getShaderModules : list string;
  getTypeConformances : list string;
  getRaytracingMaxAttributeSize : N;
  getSceneDefines : DefineList
}.

(** The host's scenes, by identity, as they are when a callback runs. *)
Definition Scenes := ObjId -> Scene.

Inductive FillMode := Wireframe | Solid.
Inductive CullMode := CullNone | CullFront | CullBack.
Record RasterizerState := { fillMode : FillMode; cullMode : CullMode }.

Record Fbo := { fbo_id : ObjId; colorTargets : list (option Texture) }.

Record GraphicsState := {
  gs_id : ObjId;
  gs_program : option ObjId;
  gs_rasterizerState : option RasterizerState;
  gs_fbo : option Fbo
}.

Definition GraphicsState_setProgram (p : ObjId) (g : GraphicsState) : GraphicsState :=
  let '(Build_GraphicsState id _ rs fbo) := g in
  Build_GraphicsState id (Some p) rs fbo.

Definition GraphicsState_setRasterizerState (rs : RasterizerState) (g : GraphicsState) : GraphicsState :=
  let '(Build_GraphicsState id program _ fbo) := g in
  Build_GraphicsState id program (Some rs) fbo.

Definition GraphicsState_setFbo (f : Fbo) (g : GraphicsState) : GraphicsState :=
  let '(Build_GraphicsState id program rs _) := g in
  Build_GraphicsState id program rs (Some f).

(** The entries of the inter-pass [Dictionary] that a pass reads, as the
    values the reads convert them to ([None] is a null [ref<Buffer>]). *)
Record Dictionary := {
  gGuidedRaysSize : N;
  gGuidedRays : option Buffer;
  gComputeRays : bool
}.

(** [RenderData]: the resources the render graph hands to [execute], by
    channel name ([None] is a null reference; [renderData[name]] and
    [renderData.getTexture(name)] are both read through [getTexture]), the
    default texture dimensions of the frame, and the dictionary. *)
Record RenderData := {
  getTexture : string -> option Texture;
  getDefaultTextureDims : N * N;
  getDictionary : Dictionary
}.

(** ** Calls into the host *)

Inductive PrintArg := PUInt (n : N) | PFloat (f : float).

Inductive Event :=
| ClearTexture (pDst : Texture)
| ClearFbo (fbo : Fbo) (color : float4) (depth : float) (stencil : N)
| LogWarning (format : string) (args : list string)
| GetLightCollection (scene : ObjId)
| DictionarySet (key : string) (value : option Buffer)
| GetElements (buffer : Buffer) (firstElement elementCount : N)
| Printf (format : string) (args : list PrintArg)
| Rasterize (scene : ObjId) (state : GraphicsState) (vars : ObjId)
            (rasterizerStates : RasterizerState * RasterizerState)
| Raytrace (scene : ObjId) (program : ObjId) (vars : ObjId) (dispatchDims : N * N * N).

Definition is_draw (e : Event) : bool :=
  match e with Rasterize _ _ _ _ | Raytrace _ _ _ _ => true | _ => false end.

Definition is_warning (e : Event) : bool :=
  match e with LogWarning _ _ => true | _ => false end.

Definition is_printf (e : Event) : bool :=
  match e with Printf _ _ => true | _ => false end.

Definition is_decode (e : Event) : bool :=
  match e with GetElements _ _ _ => true | _ => false end.

(** The textures a trace clears. *)
Definition cleared_by (e : Event) : list Texture :=
  match e with
  | ClearTexture t => [t]
  | ClearFbo f _ _ _ => omap id (colorTargets f)
  | _ => []
  end.

Definition cleared (tr : list Event) : list Texture := tr ≫= cleared_by.

(** The draw and ray-dispatch calls of a trace. *)
Definition keep (f : Event -> bool) (tr : list Event) : list Event :=
  omap (fun e => if f e then Some e else None) tr.

Definition draws (tr : list Event) : list Event := keep is_draw tr.

(** ** The monad of member functions *)

Inductive Fault :=
| NullDereference (expr : string)
| AssertionFailed (expr : string)
| IndexOutOfRange (expr : string).

Inductive Outcome (S A : Type) :=
| Returned (a : A) (s : S) (tr : list Event)
| Thrown (what : string) (s : S) (tr : list Event)
| Faulted (f : Fault) (s : S) (tr : list Event).
Arguments Returned {S A} a s tr.
Arguments Thrown {S A} what s tr.
Arguments Faulted {S A} f s tr.

Definition M (S A : Type) : Type := S -> Outcome S A.

Definition M_ret {S A} (a : A) : M S A := fun s => Returned a s [].

Definition M_bind {S A B} (f : A -> M S B) (m : M S A) : M S B :=
  fun s =>
    match m s with
    | Returned a s1 tr1 =>
        match f a s1 with
        | Returned b s2 tr2 => Returned b s2 (tr1 ++ tr2)
        | Thrown w s2 tr2 => Thrown w s2 (tr1 ++ tr2)
        | Faulted x s2 tr2 => Faulted x s2 (tr1 ++ tr2)
        end
    | Thrown w s1 tr1 => Thrown w s1 tr1
    | Faulted x s1 tr1 => Faulted x s1 tr1
    end.

#[global] Instance M_mret S : MRet (M S) := @M_ret S.
#[global] Instance M_mbind S : MBind (M S) := @M_bind S.

(** A null [ref<T>]. *)
Definition is_null {A} (r : option A) : bool :=
  match r with None => true | Some _ => false end.

Definition get {S} : M S S := fun s => Returned s s [].
Definition modify {S} (f : S -> S) : M S unit := fun s => Returned tt (f s) [].
Definition emit {S} (e : Event) : M S unit := fun s => Returned tt s [e].
Definition throw {S A} (what : string) : M S A := fun s => Thrown what s [].
Definition fault {S A} (x : Fault) : M S A := fun s => Faulted x s [].
Definition when {S} (b : bool) (m : M S unit) : M S unit := if b then m else mret tt.

Fixpoint for_each {S A} (l : list A) (body : A -> M S unit) : M S unit :=
  match l with
  | [] => mret tt
  | x :: l' => body x;; for_each l' body
  end.

(** The trace and the state an outcome ends with. *)
Definition trace_of {S A} (o : Outcome S A) : list Event :=
  match o with Returned _ _ tr | Thrown _ _ tr | Faulted _ _ tr => tr end.

Definition state_of {S A} (o : Outcome S A) : S :=
  match o with Returned _ s _ | Thrown _ s _ | Faulted _ s _ => s end.

Definition returns {S A} (o : Outcome S A) : bool :=
  match o with Returned _ _ _ => true | _ => false end.

Definition throws {S A} (o : Outcome S A) : bool :=
  match o with Thrown _ _ _ => true | _ => false end.

Definition faults {S A} (o : Outcome S A) : bool :=
  match o with Faulted _ _ _ => true | _ => false end.

(** ** Render-graph reflection *)

Inductive Visibility := Input | Output.

Record Field := {
  field_name : string;
  field_desc : string;
  field_visibility : Visibility;
  field_optional : bool
}.

Definition addOutput (name desc : string) : Field :=
  {| field_name := name; field_desc := desc; field_visibility := Output; field_optional := false |}.

Definition is_output (f : Field) : bool :=
  match field_visibility f with Output => true | Input => false end.

(** The names of the output channels a reflection declares. *)
Definition declared_outputs (r : list Field) : list string :=
  omap (fun f => if is_output f then Some (field_name f) else None) r.

(** [clears_outputs r rd tr]: every output channel declared in [r] that has
    a texture in [rd] is cleared by [tr]. *)
Definition clears_outputs (r : list Field) (rd : RenderData) (tr : list Event) : Prop :=
  ∀ name t, name ∈ declared_outputs r → getTexture rd name = Some t → t ∈ cleared tr.

(** ** Records shared through buffers *)

(** Modelled from the spec: the declaration of [DensityNode] is not among
    the sources.  A node has 8 children, each with a child index, a
    placeholder float and a density weight, in the order of the initializer
    [{0, 0.0f, 0.5f}]. *)
Record DensityChild := { index : N; placeholder : float; density : float }.
Record DensityNode := { childs : list DensityChild }.

(** The declaration of [GuidedRayLine] is not among the sources either; the
    fields are the ones [generateRaysGeometry] reads. *)
Record GuidedRayLine := { pos1 : float3; pos2 : float3; color : float3 }.

Inductive ResourceBindFlags := ShaderResource | UnorderedAccess.
Inductive MemoryType := DeviceLocal.

(** A buffer made by [Device::createStructuredBuffer]: its identity and the
    arguments of the call. *)
Record StructuredBuffer := {
  buf_id : Buffer;
  buf_elementCount : N;
  buf_bindFlags : list ResourceBindFlags;
  buf_memoryType : MemoryType;
  buf_initData : list DensityNode
}.

(** ** Channel lists ([RenderPassHelpers.h]) *)

Inductive ResourceFormat := Unknown | RGBA32Float.

Record ChannelDesc := {
  name : string;
  texname : string;
  desc : string;
  optional : bool;
  format : ResourceFormat
}.

Definition channel (n t d : string) : ChannelDesc :=
  {| name := n; texname := t; desc := d; optional := false; format := Unknown |}.

Definition addRenderPassInputs (channels : list ChannelDesc) : list Field :=
  (fun c => {| field_name := name c; field_desc := desc c;
               field_visibility := Input; field_optional := optional c |}) <$> channels.

Definition addRenderPassOutputs (channels : list ChannelDesc) : list Field :=
  (fun c => {| field_name := name c; field_desc := desc c;
               field_visibility := Output; field_optional := optional c |}) <$> channels.

(** ** What the host leaves open

    Constants and helpers of the host that the passes use and whose
    definitions are not among the sources.  Nothing is assumed about
    them. *)
Class HostApi := {
  (** [Scene::UpdateFlags::GeometryChanged] *)
  GeometryChanged : N;
  (** [is_set(flags, flag)] on a flags enumeration *)
  is_set : N -> N -> bool;
  (** [getValidResourceDefines(channels, renderData)] *)
  getValidResourceDefines : list ChannelDesc -> RenderData -> DefineList;
  (** [Buffer::getElements<GuidedRayLine>(firstElement, elementCount)] *)
  getElements : Buffer -> N -> N -> list GuidedRayLine;
  (** whether [FALCOR_ASSERT] is compiled in (debug builds) or expands to
      nothing (release builds) *)
  assertsEnabled : bool
}.

(** [FALCOR_ASSERT(cond)]. *)
Definition FALCOR_ASSERT `{HostApi} {S} (expr : string) (cond : bool) : M S unit :=
  if assertsEnabled && negb cond then fault (AssertionFailed expr) else mret tt.

(** * FocalGuiding *)

Module FocalGuiding.
Section WithHost.
Context {host : HostApi}.

Definition kShaderFile : string := "RenderPasses/FocalGuiding/FocalGuiding.rt.slang".
Definition kMaxPayloadSizeBytes : N := 72.
Definition kMaxRecursionDepth : N := 2.
Definition kInputViewDir : string := "viewW".

Definition kInputChannels : list ChannelDesc :=
  [ channel "vbuffer" "gVBuffer" "Visibility buffer in packed format";
    {| name := kInputViewDir; texname := "gViewW";
       desc := "World-space view direction (xyz float format)";
       optional := true; format := Unknown |} ].

Definition kOutputChannels : list ChannelDesc :=
  [ {| name := "color"; texname := "gOutputColor";
       desc := "Output color (sum of direct and indirect)";
       optional := false; format := RGBA32Float |} ].

(** [RtBindingTable]. *)
Record RtBindingTable := {
  sbt_id : ObjId;
  sbt_missCount : N;
  sbt_rayTypeCount : N;
  sbt_geometryCount : N;
  sbt_rayGen : option nat;
  sbt_miss : list (N * nat);
  sbt_hitGroups : list (N * list N * nat)
}.

Definition RtBindingTable_create (id : ObjId) (missCount rayTypeCount geometryCount : N) : RtBindingTable :=
  {| sbt_id := id; sbt_missCount := missCount; sbt_rayTypeCount := rayTypeCount;
     sbt_geometryCount := geometryCount; sbt_rayGen := None; sbt_miss := [];
     sbt_hitGroups := [] |}.

Definition setRayGen (shader : nat) (t : RtBindingTable) : RtBindingTable :=
  let '(Build_RtBindingTable id missCount rayTypeCount geometryCount _ miss hitGroups) := t in
  Build_RtBindingTable id missCount rayTypeCount geometryCount (Some shader) miss hitGroups.

Definition setMiss (missIndex : N) (shader : nat) (t : RtBindingTable) : RtBindingTable :=
  let '(Build_RtBindingTable id missCount rayTypeCount geometryCount rayGen miss hitGroups) := t in
  Build_RtBindingTable id missCount rayTypeCount geometryCount rayGen
    (miss ++ [(missIndex, shader)]) hitGroups.

Definition setHitGroup (rayType : N) (geometryIDs : list N) (shader : nat)
    (t : RtBindingTable) : RtBindingTable :=
  let '(Build_RtBindingTable id missCount rayTypeCount geometryCount rayGen miss hitGroups) := t in
  Build_RtBindingTable id missCount rayTypeCount geometryCount rayGen miss
    (hitGroups ++ [(rayType, geometryIDs, shader)]).

(** [RtProgramVars]: program vars made for a program and a binding table. *)
Record RtProgramVars := {
  rt_vars : ProgramVars;
  rt_bindingTable : ObjId
}.

(** The [mTracer] member. *)
Record Tracer := {
  pProgram : option Program;
  pBindingTable : option RtBindingTable;
  pVars : option RtProgramVars
}.

(** The members of the pass.  The header is not among the sources: the
    members are the ones the member functions use, and the initial value of
    [mNodesSize] is left open. *)
Record State := {
  mpDevice : Device;
  mpScene : option ObjId;
  mTracer : Tracer;
  mNodes : option StructuredBuffer;
  mNodesSize : N
}.

Definition set_pProgram (v : option Program) (s : State) : State :=
  let '(Build_State device scene (Build_Tracer _ sbt vars) nodes nodesSize) := s in
  Build_State device scene (Build_Tracer v sbt vars) nodes nodesSize.

Definition set_pBindingTable (v : option RtBindingTable) (s : State) : State :=
  let '(Build_State device scene (Build_Tracer program _ vars) nodes nodesSize) := s in
  Build_State device scene (Build_Tracer program v vars) nodes nodesSize.

Definition set_pVars (v : option RtProgramVars) (s : State) : State :=
  let '(Build_State device scene (Build_Tracer program sbt _) nodes nodesSize) := s in
  Build_State device scene (Build_Tracer program sbt v) nodes nodesSize.

Definition set_mpScene (v : option ObjId) (s : State) : State :=
  let '(Build_State device _ tracer nodes nodesSize) := s in
  Build_State device v tracer nodes nodesSize.

Definition set_mNodes (v : option StructuredBuffer) (s : State) : State :=
  let '(Build_State device scene tracer _ nodesSize) := s in
  Build_State device scene tracer v nodesSize.

(** An object is created through [mpDevice]: its identity is the device's
    next one. *)
Definition create : M State ObjId :=
  fun s =>
    let '(Build_State (Build_Device id) scene tracer nodes nodesSize) := s in
    Returned id (Build_State (Build_Device (S id)) scene tracer nodes nodesSize) [].

(** [FocalGuiding::FocalGuiding(pDevice, props)]. *)
Definition construct (pDevice : Device) (nodesSize : N) : State :=
  {| mpDevice := pDevice; mpScene := None;
     mTracer := {| pProgram := None; pBindingTable := None; pVars := None |};
     mNodes := None; mNodesSize := nodesSize |}.

(** [FocalGuiding::reflect]. *)
Definition reflect : list Field :=
  addRenderPassInputs kInputChannels ++ addRenderPassOutputs kOutputChannels.

(** [mTracer.pProgram->f(...)] for an [f] that changes the program. *)
Definition on_pProgram (f : Program -> Program) : M State unit :=
  s ← get;
  match pProgram (mTracer s) with
  | None => fault (NullDereference "mTracer.pProgram")
  | Some p => modify (set_pProgram (Some (f p)))
  end.

(** [var[path] = v] for [var = mTracer.pVars->getRootVar()]. *)
Definition set_var (path : list string) (v : VarValue) : M State unit :=
  s ← get;
  match pVars (mTracer s) with
  | None => fault (NullDereference "mTracer.pVars")
  | Some (Build_RtProgramVars vars sbt) =>
      modify (set_pVars (Some (Build_RtProgramVars (ProgramVars_set path v vars) sbt)))
  end.

(** The initializer of [prepareVars]. *)
Definition initDensities : list DensityNode :=
  [ {| childs :=
        [ {| index := 0; placeholder := 0.0; density := 0.5 |};
          {| index := 0; placeholder := 0.0; density := f32_0_9 |};
          {| index := 0; placeholder := 0.0; density := 0.5 |};
          {| index := 0; placeholder := 0.0; density := f32_0_9 |};
          {| index := 0; placeholder := 0.0; density := 0.5 |};
          {| index := 0; placeholder := 0.0; density := f32_0_9 |};
          {| index := 0; placeholder := 0.0; density := 0.5 |};
          {| index := 0; placeholder := 0.0; density := 1.0 |} ] |} ]%float.

(** [FocalGuiding::prepareVars]. *)
Definition prepareVars (scenes : Scenes) : M State unit :=
  s ← get;
  FALCOR_ASSERT "mpScene" (negb (is_null (mpScene s)));;
  FALCOR_ASSERT "mTracer.pProgram" (negb (is_null (pProgram (mTracer s))));;
  match mpScene s with
  | None => fault (NullDereference "mpScene")
  | Some scene =>
      on_pProgram (Program_setTypeConformances (getTypeConformances (scenes scene)));;
      s ← get;
      match pProgram (mTracer s), pBindingTable (mTracer s) with
      | Some program, Some sbt =>
          id ← create;
          modify (set_pVars (Some {| rt_vars := ProgramVars_create id (getReflector program);
                                     rt_bindingTable := sbt_id sbt |}));;
          let bindFlags := [ShaderResource; UnorderedAccess] in
          let memoryType := DeviceLocal in
          s ← get;
          id ← create;
          modify (set_mNodes (Some {| buf_id := id; buf_elementCount := mNodesSize s;
                                      buf_bindFlags := bindFlags; buf_memoryType := memoryType;
                                      buf_initData := initDensities |}))
      | None, _ => fault (NullDereference "mTracer.pProgram")
      | _, None => fault (NullDereference "mTracer.pBindingTable")
      end
  end.

(** The [bind] lambda of [execute]. *)
Definition bind (renderData : RenderData) (d : ChannelDesc) : M State unit :=
  when (negb (String.eqb (texname d) ""))
       (set_var [texname d] (VTexture (getTexture renderData (name d)))).

(** [FocalGuiding::execute]. *)
Definition execute (scenes : Scenes) (renderData : RenderData) : M State unit :=
  s ← get;
  match mpScene s with
  | None =>
      for_each kOutputChannels (fun it =>
        match getTexture renderData (name it) with
        | Some pDst => emit (ClearTexture pDst)
        | None => mret tt
        end)
  | Some scene =>
      if is_set (getUpdates (scenes scene)) GeometryChanged then
        throw "DirectRayTracer: This render pass does not support scene geometry changes."
      else
        when (useEmissiveLights (getRenderSettings (scenes scene)))
             (emit (GetLightCollection scene));;
        let useDOF := PrimFloat.ltb 0 (getApertureRadius (getCamera (scenes scene))) in
        when (useDOF && is_null (getTexture renderData kInputViewDir))
             (emit (LogWarning "Depth-of-field requires the '{}' input. Expect incorrect shading."
                               [kInputViewDir]));;
        on_pProgram (Program_addDefines (getValidResourceDefines kInputChannels renderData));;
        on_pProgram (Program_addDefines (getValidResourceDefines kOutputChannels renderData));;
        s ← get;
        when (is_null (pVars (mTracer s))) (prepareVars scenes);;
        s ← get;
        FALCOR_ASSERT "mTracer.pVars" (negb (is_null (pVars (mTracer s))));;
        set_var ["CB"; "gNodesSize"] (VUInt (mNodesSize s));;
        set_var ["CB"; "gSceneBoundsMin"] (VFloat3 (minPoint (getSceneBounds (scenes scene))));;
        set_var ["CB"; "gSceneBoundsMax"] (VFloat3 (maxPoint (getSceneBounds (scenes scene))));;
        emit (DictionarySet "gNodes" (buf_id <$> mNodes s));;
        for_each kInputChannels (bind renderData);;
        for_each kOutputChannels (bind renderData);;
        set_var ["gNodes"] (VBuffer (buf_id <$> mNodes s));;
        let targetDim := getDefaultTextureDims renderData in
        FALCOR_ASSERT "targetDim.x > 0 && targetDim.y > 0"
                      ((0 <? fst targetDim) && (0 <? snd targetDim));;
        s ← get;
        match pProgram (mTracer s), pVars (mTracer s) with
        | Some program, Some vars =>
            emit (Raytrace scene (prog_id program) (vars_id (rt_vars vars))
                           (fst targetDim, snd targetDim, 1))
        | None, _ => fault (NullDereference "mTracer.pProgram")
        | _, None => fault (NullDereference "mTracer.pVars")
        end
  end.

(** [FocalGuiding::setScene].  In the source [sbt] is a reference to
    [mTracer.pBindingTable], assigned when the table is created and then
    filled in place; here the table is filled first and stored once. *)
Definition setScene (scenes : Scenes) (pScene : option ObjId) : M State unit :=
  modify (set_pProgram None);;
  modify (set_pBindingTable None);;
  modify (set_pVars None);;
  modify (set_mpScene pScene);;
  s ← get;
  match mpScene s with
  | None => mret tt
  | Some scene =>
      when (hasGeometryType (scenes scene) Custom)
           (emit (LogWarning "DirectRayTracer: This render pass does not support custom primitives." []));;
      let desc := emptyDesc in
      let desc := addShaderModules (getShaderModules (scenes scene)) desc in
      let desc := addShaderLibrary kShaderFile desc in
      let desc := setMaxPayloadSize kMaxPayloadSizeBytes desc in
      let desc := setMaxAttributeSize (getRaytracingMaxAttributeSize (scenes scene)) desc in
      let desc := setMaxTraceRecursionDepth kMaxRecursionDepth desc in
      id ← create;
      let sbt := RtBindingTable_create id 2 2 (getGeometryCount (scenes scene)) in
      let '(desc, rayGen) := addEntryPointGroup (RayGen "rayGen") desc in
      let sbt := setRayGen rayGen sbt in
      let '(desc, scatterMiss) := addEntryPointGroup (Miss "scatterMiss") desc in
      let sbt := setMiss 0 scatterMiss sbt in
      let '(desc, shadowMiss) := addEntryPointGroup (Miss "shadowMiss") desc in
      let sbt := setMiss 1 shadowMiss sbt in
      let '(desc, sbt) :=
        if hasGeometryType (scenes scene) TriangleMesh then
          let '(desc, scatterHit) :=
            addEntryPointGroup (HitGroup "scatterTriangleMeshClosestHit" "scatterTriangleMeshAnyHit") desc in
          let sbt := setHitGroup 0 (getGeometryIDs (scenes scene) TriangleMesh) scatterHit sbt in
          let '(desc, shadowHit) :=
            addEntryPointGroup (HitGroup "" "shadowTriangleMeshAnyHit") desc in
          let sbt := setHitGroup 1 (getGeometryIDs (scenes scene) TriangleMesh) shadowHit sbt in
          (desc, sbt)
        else (desc, sbt) in
      modify (set_pBindingTable (Some sbt));;
      id ← create;
      modify (set_pProgram (Some {| prog_id := id; prog_desc := desc;
                                    prog_defines := getSceneDefines (scenes scene);
                                    prog_typeConformances := [] |}))
  end.

(** *** Notions the properties of the pass are stated with *)

(** The density weight of child slot [i] of the initializer, as the
    specification gives it: 0.5 for slots 0 to 6 and 1.0 for slot 7. *)
Definition spec_weight (i : nat) : float :=
  if (i <? 7)%nat then 0.5%float else 1.0%float.

(** The assertion on the dispatch dimensions at the end of [execute]. *)
Definition kTargetDimAssert : string := "targetDim.x > 0 && targetDim.y > 0".

Definition dims_ok (renderData : RenderData) : bool :=
  (0 <? fst (getDefaultTextureDims renderData)) && (0 <? snd (getDefaultTextureDims renderData)).

Definition geometry_warning : Event :=
  LogWarning "DirectRayTracer: This render pass does not support custom primitives." [].

Definition dof_warning : Event :=
  LogWarning "Depth-of-field requires the '{}' input. Expect incorrect shading." [kInputViewDir].

Definition kGeometryChangedError : string :=
  "DirectRayTracer: This render pass does not support scene geometry changes.".

(** The program vars a frame runs with: the ones the pass holds, or else the
    ones [prepareVars] is about to create. *)
Definition vars_for (s : State) : ObjId :=
  match pVars (mTracer s) with
  | Some v => vars_id (rt_vars v)
  | None => next_id (mpDevice s)
  end.

(** The identities of the objects [mTracer] refers to. *)
Definition tracer_ids (s : State) : list ObjId :=
  match pProgram (mTracer s) with Some p => [prog_id p] | None => [] end ++
  match pBindingTable (mTracer s) with Some t => [sbt_id t] | None => [] end ++
  match pVars (mTracer s) with Some v => [vars_id (rt_vars v)] | None => [] end.

(** The program and program vars a host call is given. *)
Definition pipeline_uses (e : Event) : list ObjId :=
  match e with
  | Raytrace _ program vars _ => [program; vars]
  | _ => []
  end.

(** Program vars are stale when they were made for another program or
    another binding table than the ones the pass holds. *)
Definition vars_current (s : State) : Prop :=
  ∀ v, pVars (mTracer s) = Some v →
    mpScene s ≠ None ∧
    ∃ p t, pProgram (mTracer s) = Some p ∧ pBindingTable (mTracer s) = Some t ∧
           refl_program (vars_reflector (rt_vars v)) = prog_id p ∧
           rt_bindingTable v = sbt_id t.

(** The invariant of the pass. *)
Record wf (s : State) : Prop := {
  wf_pipeline : mpScene s ≠ None →
    ∃ p t, pProgram (mTracer s) = Some p ∧ pBindingTable (mTracer s) = Some t;
  wf_vars : vars_current s;
  wf_ids : ∀ id, id ∈ tracer_ids s → (id < next_id (mpDevice s))%nat
}.

(** The states of a pass over its life: made by the constructor, then any
    sequence of [setScene] and [execute] calls; a fault ends the life. *)
Inductive reachable : State → Prop :=
| reach_construct pDevice nodesSize :
    reachable (construct pDevice nodesSize)
| reach_setScene s scenes pScene :
    reachable s → reachable (state_of (setScene scenes pScene s))
| reach_execute s scenes renderData :
    reachable s → faults (execute scenes renderData s) = false →
    reachable (state_of (execute scenes renderData s)).

End WithHost.
End FocalGuiding.

(** * The raster passes

    [GuidedRayViz] and [MyTestPass] build the same pipeline in their
    constructors and share the same [setScene]. *)

(** The pipeline members of a raster pass.  [mpProgram], [mpRasterState] and
    [mpGraphicsState] are set by the constructor and assigned nowhere else,
    so they are never null; [mpVars] is null until [setScene] runs. *)
Record Pipeline := {
  mpDevice : Device;
  mpScene : option ObjId;
  mpProgram : Program;
  mpGraphicsState : GraphicsState;
  mpRasterState : RasterizerState;
  mpVars : option ProgramVars
}.

(** The constructor body both raster passes have. *)
Definition constructPipeline (pDevice : Device) (shaderFile : string) : Pipeline :=
  let '(Build_Device id) := pDevice in
  let program :=
    {| prog_id := id; prog_desc := graphicsDesc shaderFile "vsMain" "psMain";
       prog_defines := ∅; prog_typeConformances := [] |} in
  let wireframeDesc := {| fillMode := Wireframe; cullMode := CullNone |} in
  let rasterState := wireframeDesc in
  let graphicsState :=
    {| gs_id := S id; gs_program := None; gs_rasterizerState := None; gs_fbo := None |} in
  let graphicsState := GraphicsState_setProgram id graphicsState in
  let graphicsState := GraphicsState_setRasterizerState rasterState graphicsState in
  {| mpDevice := {| next_id := S (S id) |};
     mpScene := None; mpProgram := program; mpGraphicsState := graphicsState;
     mpRasterState := rasterState; mpVars := None |}.

(** The [setScene] body both raster passes have. *)
Definition setScenePipeline (scenes : Scenes) (pScene : option ObjId) (p : Pipeline) : Pipeline :=
  let '(Build_Pipeline (Build_Device id) _ program graphicsState rasterState _) := p in
  let program :=
    match pScene with
    | Some scene => Program_addDefines (getSceneDefines (scenes scene)) program
    | None => program
    end in
  Build_Pipeline (Build_Device (S id)) pScene program graphicsState rasterState
    (Some (ProgramVars_create id (getReflector program))).

(** [Fbo::create(mpDevice, {texture})] followed by
    [mpGraphicsState->setFbo(pTargetFbo)]. *)
Definition createTargetFbo (texture : option Texture) : M Pipeline Fbo :=
  fun p =>
    let '(Build_Pipeline (Build_Device id) scene program graphicsState rasterState vars) := p in
    Returned {| fbo_id := id; colorTargets := [texture] |}
             (Build_Pipeline (Build_Device (S id)) scene program graphicsState rasterState vars) [].

Definition setFbo (fbo : Fbo) (p : Pipeline) : Pipeline :=
  let '(Build_Pipeline device scene program graphicsState rasterState vars) := p in
  Build_Pipeline device scene program (GraphicsState_setFbo fbo graphicsState) rasterState vars.

Definition set_mpVars (v : option ProgramVars) (p : Pipeline) : Pipeline :=
  let '(Build_Pipeline device scene program graphicsState rasterState _) := p in
  Build_Pipeline device scene program graphicsState rasterState v.

(** The tail both [execute] bodies have: make the frame buffer for
    "output", clear it, attach it, and rasterize the scene if there is
    one. *)
Definition drawPipeline (renderData : RenderData) : M Pipeline unit :=
  pTargetFbo ← createTargetFbo (getTexture renderData "output");
  let clearColor : float4 := (0, 0, 0, 1)%float in
  emit (ClearFbo pTargetFbo clearColor 1.0%float 0);;
  modify (setFbo pTargetFbo);;
  p ← get;
  match mpScene p with
  | None => mret tt
  | Some scene =>
      match mpVars p with
      | None => fault (NullDereference "mpVars")
      | Some vars =>
          modify (set_mpVars (Some (ProgramVars_set ["PerFrameCB"; "gColor"]
                                      (VFloat4 (0, 1, 0, 1)%float) vars)));;
          emit (Rasterize scene (mpGraphicsState p) (vars_id vars)
                          (mpRasterState p, mpRasterState p))
      end
  end.

(** The frame buffer [drawPipeline] makes, and the clear it issues. *)
Definition targetFbo (renderData : RenderData) (p : Pipeline) : Fbo :=
  {| fbo_id := next_id (mpDevice p); colorTargets := [getTexture renderData "output"] |}.

Definition clear_target (renderData : RenderData) (p : Pipeline) : Event :=
  ClearFbo (targetFbo renderData p) (0, 0, 0, 1)%float 1.0%float 0.

(** The draw call [drawPipeline] issues for a scene. *)
Definition rasterize_scene (renderData : RenderData) (p : Pipeline) (scene : ObjId)
    (vars : ProgramVars) : Event :=
  Rasterize scene (GraphicsState_setFbo (targetFbo renderData p) (mpGraphicsState p))
            (vars_id vars) (mpRasterState p, mpRasterState p).

(** The invariant of a raster pipeline: with a scene there are program vars,
    and program vars were made for the program of the pass. *)
Record pipeline_wf (p : Pipeline) : Prop := {
  pwf_vars : mpScene p ≠ None → mpVars p ≠ None;
  pwf_current : ∀ v, mpVars p = Some v →
    refl_program (vars_reflector v) = prog_id (mpProgram p)
}.

(** * MyTestPass *)

Module MyTestPass.

Definition State := Pipeline.

(** [MyTestPass::MyTestPass]. *)
Definition construct (pDevice : Device) : State :=
  constructPipeline pDevice "RenderPasses/MyTestPass/MyTestShader.slang".

(** [MyTestPass::reflect]. *)
Definition reflect : list Field := [addOutput "output" "Wireframe view texture"].

(** [MyTestPass::execute]. *)
Definition execute (renderData : RenderData) : M State unit :=
  drawPipeline renderData.

(** [MyTestPass::setScene]. *)
Definition setScene (scenes : Scenes) (pScene : option ObjId) : M State unit :=
  modify (setScenePipeline scenes pScene).

(** The states of a pass over its life. *)
Inductive reachable : State → Prop :=
| reach_construct pDevice :
    reachable (construct pDevice)
| reach_setScene s scenes pScene :
    reachable s → reachable (state_of (setScene scenes pScene s))
| reach_execute s renderData :
    reachable s → faults (execute renderData s) = false →
    reachable (state_of (execute renderData s)).

End MyTestPass.

(** * GuidedRayViz *)

Module GuidedRayViz.
Section WithHost.
Context {host : HostApi}.

Definition kShaderFile : string := "RenderPasses/FocalGuiding/GuidedRayViz.slang".

(** The members of the pass ([GuidedRayViz.h]). *)
Record State := {
  mGuidedRaysSize : N;
  mGuidedRays : option Buffer;
  mComputeRays : bool;
  mpRayScene : option ObjId;
  pipeline : Pipeline
}.

Definition set_pipeline (p : Pipeline) (s : State) : State :=
  let '(Build_State size rays compute rayScene _) := s in
  Build_State size rays compute rayScene p.

(** The three members [execute] reads from the dictionary. *)
Definition set_fromDictionary (dict : Dictionary) (s : State) : State :=
  let '(Build_State _ _ _ rayScene p) := s in
  Build_State (gGuidedRaysSize dict) (gGuidedRays dict) (gComputeRays dict) rayScene p.

(** A computation on the pipeline members, run on the pass. *)
Definition on_pipeline {A} (m : M Pipeline A) : M State A :=
  fun s =>
    match m (pipeline s) with
    | Returned a p tr => Returned a (set_pipeline p s) tr
    | Thrown w p tr => Thrown w (set_pipeline p s) tr
    | Faulted x p tr => Faulted x (set_pipeline p s) tr
    end.

(** [GuidedRayViz::GuidedRayViz]. *)
Definition construct (pDevice : Device) : State :=
  {| mGuidedRaysSize := 10; mGuidedRays := None; mComputeRays := true;
     mpRayScene := None; pipeline := constructPipeline pDevice kShaderFile |}.

(** [GuidedRayViz::reflect]. *)
Definition reflect : list Field := [addOutput "output" "linesColor"].

(** The body of the loop of [generateRaysGeometry]. *)
Definition printRay (rayNodes : list GuidedRayLine) (i : nat) : M State unit :=
  emit (Printf "ray: %d\n" [PUInt (N.of_nat i)]);;
  match rayNodes !! i with
  | None => fault (IndexOutOfRange "rayNodes[i]")
  | Some rayLine =>
      let '(x1, y1, z1) := pos1 rayLine in
      let '(x2, y2, z2) := pos2 rayLine in
      let '(r, g, b) := color rayLine in
      emit (Printf "pos1: %f, %f, %f\n" [PFloat x1; PFloat y1; PFloat z1]);;
      emit (Printf "pos2: %f, %f, %f\n" [PFloat x2; PFloat y2; PFloat z2]);;
      emit (Printf "color: %f, %f, %f\n" [PFloat r; PFloat g; PFloat b])
  end.

(** [GuidedRayViz::generateRaysGeometry]. *)
Definition generateRaysGeometry : M State unit :=
  s ← get;
  match mGuidedRays s with
  | None => fault (NullDereference "mGuidedRays")
  | Some buffer =>
      emit (GetElements buffer 0 (mGuidedRaysSize s));;
      let rayNodes := getElements buffer 0 (mGuidedRaysSize s) in
      for_each (seq 0 (N.to_nat (mGuidedRaysSize s))) (printRay rayNodes)
  end.

(** [GuidedRayViz::execute]. *)
Definition execute (renderData : RenderData) : M State unit :=
  s ← get;
  if is_null (mpScene (pipeline s)) then mret tt
  else
    let dict := getDictionary renderData in
    modify (set_fromDictionary dict);;
    s ← get;
    when (mComputeRays s && negb (is_null (mGuidedRays s))) generateRaysGeometry;;
    on_pipeline (drawPipeline renderData).

(** [GuidedRayViz::setScene]. *)
Definition setScene (scenes : Scenes) (pScene : option ObjId) : M State unit :=
  on_pipeline (modify (setScenePipeline scenes pScene)).

(** *** Notions the properties of the pass are stated with *)

(** The condition under which [execute] calls [generateRaysGeometry]: the
    recompute flag is set and the buffer handle is present. *)
Definition decodes (renderData : RenderData) : bool :=
  gComputeRays (getDictionary renderData)
  && negb (is_null (gGuidedRays (getDictionary renderData))).

(** The states of a pass over its life. *)
Inductive reachable : State → Prop :=
| reach_construct pDevice :
    reachable (construct pDevice)
| reach_setScene s scenes pScene :
    reachable s → reachable (state_of (setScene scenes pScene s))
| reach_execute s renderData :
    reachable s → faults (execute renderData s) = false →
    reachable (state_of (execute renderData s)).

End WithHost.
End GuidedRayViz.

(** * Sample objects

    A host, scenes and frames to run the passes on. *)

Definition sampleLine : GuidedRayLine :=
  {| pos1 := (0, 0, 0)%float; pos2 := (1, 1, 1)%float; color := (1, 0, 0)%float |}.

Definition sampleHost : HostApi :=
  {| GeometryChanged := 2;
     is_set := fun flags flag => negb (N.land flags flag =? 0);
     getValidResourceDefines := fun _ _ => ∅;
     getElements := fun _ _ count => replicate (N.to_nat count) sampleLine;
     assertsEnabled := true |}.

Definition sampleScene (updates : N) (aperture : float) (custom : bool)
    (defines : DefineList) : Scene :=
  {| getUpdates := updates;
     getRenderSettings := {| useEmissiveLights := true |};
     getCamera := {| getApertureRadius := aperture |};
     getSceneBounds := {| minPoint := (0, 0, 0)%float; maxPoint := (1, 1, 1)%float |};
     hasGeometryType := fun g => match g with TriangleMesh => true | Custom => custom end;
     getGeometryCount := 1;
     getGeometryIDs := fun g => match g with TriangleMesh => [0] | Custom => [] end;
     getShaderModules := [];
     getTypeConformances := [];
     getRaytracingMaxAttributeSize := 8;
     getSceneDefines := defines |}.

(** Scene 0 is static with a pinhole camera; scene 1 has custom primitives
    and an open aperture; scene 2 reports a geometry change. *)
Definition sampleScenes : Scenes :=
  fun id =>
    match id with
    | O => sampleScene 0 0%float false {["SCENE_A" := "1"]}
    | S O => sampleScene 0 0.5%float true {["SCENE_B" := "1"]}
    | _ => sampleScene 2 0%float false ∅
    end.

Definition sampleDevice : Device := {| next_id := 0%nat |}.

(** A frame with textures for "vbuffer", "color" and "output", no "viewW",
    and a dictionary that asks for [count] rays of buffer 50 to be decoded
    when [compute] is set. *)
Definition sampleFrame (compute : bool) (count : N) : RenderData :=
  {| getTexture := fun n =>
       if String.eqb n "color" then Some 100%nat
       else if String.eqb n "output" then Some 101%nat
       else if String.eqb n "vbuffer" then Some 102%nat
       else None;
     getDefaultTextureDims := (640, 480);
     getDictionary := {| gGuidedRaysSize := count; gGuidedRays := Some 50%nat;
                         gComputeRays := compute |} |}.

(** A pass bound to scene 0 by one [setScene] call after construction. *)
Definition sampleBound : FocalGuiding.State :=
  state_of (FocalGuiding.setScene sampleScenes (Some 0%nat)
              (FocalGuiding.construct sampleDevice 16)).

(** A pass bound to scene 2, which reports a geometry change. *)
Definition sampleChanged : FocalGuiding.State :=
  state_of (FocalGuiding.setScene sampleScenes (Some 2%nat)
              (FocalGuiding.construct sampleDevice 16)).

(** A frame with no width, which fails the assertion on the dimensions. *)
Definition sampleEmptyFrame : RenderData :=
  {| getTexture := getTexture (sampleFrame false 0);
     getDefaultTextureDims := (0, 480);
     getDictionary := getDictionary (sampleFrame false 0) |}.

(** A pass bound to scene 1, which has custom primitives and an open
    aperture. *)
Definition sampleDegraded : FocalGuiding.State :=
  state_of (FocalGuiding.setScene sampleScenes (Some 1%nat)
              (FocalGuiding.construct sampleDevice 16)).

(** A GuidedRayViz pass bound to scene 0. *)
Definition sampleViz : GuidedRayViz.State :=
  state_of (GuidedRayViz.setScene sampleScenes (Some 0%nat)
              (GuidedRayViz.construct sampleDevice)).

(** * Notions for whole frames and whole lives *)

Section FrameNotions.
Context {host : HostApi}.
Import FocalGuiding.

(** The defines of the program after a frame: the 'is_valid' defines of the
    input channels, then those of the output channels, added to the ones it
    had. *)
Definition frame_defines (rd : RenderData) (defines : DefineList) : DefineList :=
  addDefines (getValidResourceDefines kOutputChannels rd)
    (addDefines (getValidResourceDefines kInputChannels rd) defines).

(** The density buffer [prepareVars] creates in state [s]: the second
    object it makes. *)
Definition new_nodes (s : State) : StructuredBuffer :=
  {| buf_id := S (next_id (mpDevice s)); buf_elementCount := mNodesSize s;
     buf_bindFlags := [ShaderResource; UnorderedAccess]; buf_memoryType := DeviceLocal;
     buf_initData := initDensities |}.

(** The density buffer a frame runs with. *)
Definition frame_nodes (s : State) : option StructuredBuffer :=
  if is_null (pVars (mTracer s)) then Some (new_nodes s) else mNodes s.

(** The shader variables a frame assigns, in the order of the source, on
    top of the bindings [base]. *)
Definition frame_bindings (scenes : Scenes) (rd : RenderData) (scene : ObjId)
    (nodesSize : N) (nodes : option Buffer)
    (base : gmap (list string) VarValue) : gmap (list string) VarValue :=
  <[ ["gNodes"] := VBuffer nodes ]>
  (<[ ["gOutputColor"] := VTexture (getTexture rd "color") ]>
  (<[ ["gViewW"] := VTexture (getTexture rd kInputViewDir) ]>
  (<[ ["gVBuffer"] := VTexture (getTexture rd "vbuffer") ]>
  (<[ ["CB"; "gSceneBoundsMax"] := VFloat3 (maxPoint (getSceneBounds (scenes scene))) ]>
  (<[ ["CB"; "gSceneBoundsMin"] := VFloat3 (minPoint (getSceneBounds (scenes scene))) ]>
  (<[ ["CB"; "gNodesSize"] := VUInt nodesSize ]> base)))))).

(** The calls a frame makes before the dispatch. *)
Definition frame_prologue (scenes : Scenes) (rd : RenderData) (s : State) (scene : ObjId)
    : list Event :=
  (if useEmissiveLights (getRenderSettings (scenes scene))
   then [GetLightCollection scene] else []) ++
  (if PrimFloat.ltb 0 (getApertureRadius (getCamera (scenes scene)))
      && is_null (getTexture rd kInputViewDir)
   then [dof_warning] else []) ++
  [DictionarySet "gNodes" (buf_id <$> frame_nodes s)].

(** The dispatch of a frame. *)
Definition frame_dispatch (rd : RenderData) (s : State) (scene : ObjId) (p : Program) : Event :=
  Raytrace scene (prog_id p) (vars_for s)
    (fst (getDefaultTextureDims rd), snd (getDefaultTextureDims rd), 1).

(** A binding table agrees with a program description when its ray
    generation entry, its miss entries and its hit groups name entry point
    groups of the description of the matching kind, and the miss indices and
    ray types are within the sizes the table was created with. *)
Definition sbt_agrees (d : ProgramDesc) (t : RtBindingTable) : Prop :=
  (∃ i name, sbt_rayGen t = Some i ∧ entryPointGroups d !! i = Some (RayGen name)) ∧
  (∀ m i, (m, i) ∈ sbt_miss t →
     m < sbt_missCount t ∧ ∃ name, entryPointGroups d !! i = Some (Miss name)) ∧
  (∀ r ids i, (r, ids, i) ∈ sbt_hitGroups t →
     r < sbt_rayTypeCount t ∧
     ∃ closestHit anyHit, entryPointGroups d !! i = Some (HitGroup closestHit anyHit)).

End FrameNotions.

(** The rasterizer state both raster passes make: wireframe, no culling. *)
Definition kWireframe : RasterizerState := {| fillMode := Wireframe; cullMode := CullNone |}.

(** The one shader variable the raster passes assign, and its value. *)
Definition kColorVar : list string := ["PerFrameCB"; "gColor"].
Definition kGreen : VarValue := VFloat4 (0, 1, 0, 1)%float.

(** What the constructor of a raster pass fixes for good: the program
    description, the program of the graphics state, and the rasterizer
    state, of the graphics state and of the pass. *)
Record pipeline_fixed (shaderFile : string) (p : Pipeline) : Prop := {
  fixed_desc : prog_desc (mpProgram p) = graphicsDesc shaderFile "vsMain" "psMain";
  fixed_program : gs_program (mpGraphicsState p) = Some (prog_id (mpProgram p));
  fixed_gs_raster : gs_rasterizerState (mpGraphicsState p) = Some kWireframe;
  fixed_raster : mpRasterState p = kWireframe
}.

(** [p'] is a later state of the pipeline [p]: any number of [setScene] and
    clear-and-draw steps lie between them. *)
Inductive pipeline_later (p : Pipeline) : Pipeline → Prop :=
| later_now : pipeline_later p p
| later_setScene p' scenes pScene :
    pipeline_later p p' → pipeline_later p (setScenePipeline scenes pScene p')
| later_draw p' rd :
    pipeline_later p p' → pipeline_later p (state_of (drawPipeline rd p')).

(** The four lines [generateRaysGeometry] prints for record [i]. *)
Definition ray_lines (i : nat) (r : GuidedRayLine) : list Event :=
  let '(x1, y1, z1) := pos1 r in
  let '(x2, y2, z2) := pos2 r in
  let '(cr, cg, cb) := color r in
  [ Printf "ray: %d\n" [PUInt (N.of_nat i)];
    Printf "pos1: %f, %f, %f\n" [PFloat x1; PFloat y1; PFloat z1];
    Printf "pos2: %f, %f, %f\n" [PFloat x2; PFloat y2; PFloat z2];
    Printf "color: %f, %f, %f\n" [PFloat cr; PFloat cg; PFloat cb] ].

(** The lines printed for the records [a], [a + 1], ..., [a + n - 1]. *)
Definition rays_lines (records : list GuidedRayLine) (a n : nat) : list Event :=
  seq a n ≫= (λ i, from_option (ray_lines i) [] (records !! i)).

(** The frame buffer identities of [n] consecutive frames that start with
    the device counter at [id]. *)
Definition frame_targets (id : ObjId) (rds : list RenderData) : list Fbo :=
  imap (λ i rd, {| fbo_id := (id + i)%nat; colorTargets := [getTexture rd "output"] |}) rds.

(** The frame buffers a trace clears. *)
Definition cleared_fbos (tr : list Event) : list Fbo :=
  omap (λ e, match e with ClearFbo f _ _ _ => Some f | _ => None end) tr.

(** A MyTestPass pass bound to scene 0. *)
Definition sampleTest : MyTestPass.State :=
  state_of (MyTestPass.setScene sampleScenes (Some 0%nat) (MyTestPass.construct sampleDevice)).

(** * Facts about FocalGuiding *)

Section FocalGuidingFacts.
Context {host : HostApi}.
Import FocalGuiding.

Ltac run :=
  unfold execute, setScene, prepareVars, bind, set_var, on_pProgram, FALCOR_ASSERT,
    when, for_each, mbind, mret, M_mbind, M_mret, M_bind, M_ret, modify, get, create,
    emit, throw, fault; cbn.

Ltac run_in H :=
  unfold execute, setScene, prepareVars, bind, set_var, on_pProgram, FALCOR_ASSERT,
    when, for_each, mbind, mret, M_mbind, M_mret, M_bind, M_ret, modify, get, create,
    emit, throw, fault in H; cbn in H.

(** [setScene] always returns; what it leaves behind depends on the new
    scene only, apart from the device counter and the density buffer. *)
Lemma FG_setScene_spec scenes pScene s :
  let o := setScene scenes pScene s in
  let s' := state_of o in
  o = Returned tt s' (trace_of o) ∧
  mpScene s' = pScene ∧
  pVars (mTracer s') = None ∧
  mNodes s' = mNodes s ∧
  mNodesSize s' = mNodesSize s ∧
  match pScene with
  | None =>
      pProgram (mTracer s') = None ∧ pBindingTable (mTracer s') = None ∧
      mpDevice s' = mpDevice s ∧ trace_of o = []
  | Some scene =>
      (∃ p t, pProgram (mTracer s') = Some p ∧ pBindingTable (mTracer s') = Some t ∧
              sbt_id t = next_id (mpDevice s) ∧ prog_id p = S (next_id (mpDevice s)) ∧
              prog_defines p = getSceneDefines (scenes scene)) ∧
      next_id (mpDevice s') = S (S (next_id (mpDevice s))) ∧
      trace_of o = (if hasGeometryType (scenes scene) Custom then [geometry_warning] else [])
  end.
Proof.
  intros o s'. subst s'.
  destruct s as [[dev] sc [pp pb pv] nodes sz].
  assert (Ho : o = setScene scenes pScene
                 {| mpDevice := {| next_id := dev |}; mpScene := sc;
                    mTracer := {| pProgram := pp; pBindingTable := pb; pVars := pv |};
                    mNodes := nodes; mNodesSize := sz |}) by reflexivity.
  clearbody o.
  destruct pScene as [scene|].
  - destruct (hasGeometryType (scenes scene) Custom) eqn:E1,
      (hasGeometryType (scenes scene) TriangleMesh) eqn:E2;
      run_in Ho; rewrite ?E1, ?E2 in Ho; cbn in Ho; subst o; cbn;
      split_and!; try reflexivity; eexists _, _; split_and!; reflexivity.
  - run_in Ho. subst o. cbn. by split_and!.
Qed.

(** [execute] without a scene: the outputs that have a texture are
    cleared, nothing else happens. *)
Lemma FG_execute_no_scene scenes rd s :
  mpScene s = None →
  execute scenes rd s =
    Returned tt s (match getTexture rd "color" with
                   | Some pDst => [ClearTexture pDst]
                   | None => []
                   end).
Proof.
  destruct s as [[dev] sc [pp pb pv] nodes sz]. cbn. intros ->.
  run. by destruct (getTexture rd "color").
Qed.

(** [execute] on a scene whose geometry changed: the exception leaves
    before anything was touched. *)
Lemma FG_execute_geometry_changed scenes rd s scene :
  mpScene s = Some scene →
  is_set (getUpdates (scenes scene)) GeometryChanged = true →
  execute scenes rd s = Thrown kGeometryChangedError s [].
Proof.
  destruct s as [[dev] sc [pp pb pv] nodes sz]. cbn. intros -> Hg.
  run. by rewrite Hg.
Qed.

(** [execute] on a scene whose geometry did not change, in a state that has
    a program and a binding table. *)
Lemma FG_execute_bound scenes rd s scene p t :
  mpScene s = Some scene →
  pProgram (mTracer s) = Some p →
  pBindingTable (mTracer s) = Some t →
  is_set (getUpdates (scenes scene)) GeometryChanged = false →
  let o := execute scenes rd s in
  let s' := state_of o in
  (∃ p' v', pProgram (mTracer s') = Some p' ∧ prog_id p' = prog_id p ∧
            pBindingTable (mTracer s') = Some t ∧
            pVars (mTracer s') = Some v' ∧ vars_id (rt_vars v') = vars_for s ∧
            (pVars (mTracer s) = None →
               refl_program (vars_reflector (rt_vars v')) = prog_id p ∧
               rt_bindingTable v' = sbt_id t) ∧
            (∀ v, pVars (mTracer s) = Some v →
               vars_reflector (rt_vars v') = vars_reflector (rt_vars v) ∧
               rt_bindingTable v' = rt_bindingTable v)) ∧
  mpScene s' = Some scene ∧
  next_id (mpDevice s') =
    (if is_null (pVars (mTracer s)) then S (S (next_id (mpDevice s)))
     else next_id (mpDevice s)) ∧
  keep is_warning (trace_of o) =
    (if PrimFloat.ltb 0 (getApertureRadius (getCamera (scenes scene)))
        && is_null (getTexture rd kInputViewDir)
     then [dof_warning] else []) ∧
  (if assertsEnabled && negb (dims_ok rd)
   then o = Faulted (AssertionFailed kTargetDimAssert) s' (trace_of o) ∧
        draws (trace_of o) = []
   else o = Returned tt s' (trace_of o) ∧
        draws (trace_of o) =
          [Raytrace scene (prog_id p) (vars_for s)
             (fst (getDefaultTextureDims rd), snd (getDefaultTextureDims rd), 1)]).
Proof.
  intros H1 H2 H3 Hg o s'. subst s'.
  destruct s as [[dev] sc [pp pb pv] nodes sz]. unfold vars_for, dims_ok.
  cbn in H1, H2, H3. subst sc pp pb.
  assert (Ho : o = execute scenes rd
                 {| mpDevice := {| next_id := dev |}; mpScene := Some scene;
                    mTracer := {| pProgram := Some p; pBindingTable := Some t; pVars := pv |};
                    mNodes := nodes; mNodesSize := sz |}) by reflexivity.
  clearbody o.
  cbn [mpScene mTracer pProgram pBindingTable pVars mpDevice].
  destruct p as [pid pdesc pdef ptc].
  destruct (useEmissiveLights (getRenderSettings (scenes scene))) eqn:E1,
    (PrimFloat.ltb 0 (getApertureRadius (getCamera (scenes scene)))) eqn:E2,
    (is_null (getTexture rd kInputViewDir)) eqn:E3,
    pv as [[[vid vr vb] vt]|], assertsEnabled eqn:E4,
    (0 <? fst (getDefaultTextureDims rd)) eqn:E5, (0 <? snd (getDefaultTextureDims rd)) eqn:E6;
    run_in Ho; rewrite Hg, ?E1, ?E2, ?E3, ?E4, ?E5, ?E6 in Ho; cbn in Ho;
    rewrite ?E4, ?E5, ?E6 in Ho; cbn in Ho; subst o; cbn.
  all: split; [eexists _, _; split_and!; first [reflexivity | by intros; simplify_eq/= ]|].
  all: by split_and!.
Qed.

(** Only draws and dispatches hand pipeline objects to the host. *)
Lemma pipeline_uses_draws (tr : list Event) :
  tr ≫= pipeline_uses = draws tr ≫= pipeline_uses.
Proof.
  induction tr as [|e tr IH]; [done|].
  destruct e; cbn; by rewrite ?IH.
Qed.

(** *** The invariant *)

Lemma FG_construct_wf pDevice nodesSize : wf (construct pDevice nodesSize).
Proof.
  split; cbn; [done | by intros v [=] |].
  intros id Hid. by apply elem_of_nil in Hid.
Qed.

Lemma FG_setScene_wf scenes pScene s : wf (state_of (setScene scenes pScene s)).
Proof.
  destruct (FG_setScene_spec scenes pScene s) as (_ & Hsc & Hv & _ & _ & Hp).
  split.
  - rewrite Hsc. destruct pScene as [scene|]; [|done].
    destruct Hp as ((p & t & Hp & Ht & _) & _). eauto.
  - intros v Hv'. congruence.
  - intros id. unfold tracer_ids. rewrite Hv.
    destruct pScene as [scene|].
    + destruct Hp as ((p & t & -> & -> & Ht & Hp & _) & -> & _).
      rewrite !elem_of_app, !list_elem_of_singleton, elem_of_nil. lia.
    + destruct Hp as (-> & -> & _). cbn. by intros ?%elem_of_nil.
Qed.

Lemma FG_execute_wf scenes rd s : wf s → wf (state_of (execute scenes rd s)).
Proof.
  intros Hwf. destruct (mpScene s) as [scene|] eqn:Hsc.
  - destruct (is_set (getUpdates (scenes scene)) GeometryChanged) eqn:Hg.
    { by rewrite (FG_execute_geometry_changed _ _ _ _ Hsc Hg). }
    destruct (wf_pipeline _ Hwf) as (p & t & Hp & Ht); [congruence|].
    destruct (FG_execute_bound scenes rd s scene p t Hsc Hp Ht Hg)
      as ((p' & v' & Hp' & Hid & Ht' & Hv' & Hvid & Hnew & Hold) & Hsc' & Hdev & _).
    split.
    + intros _. eauto.
    + intros v. rewrite Hv'. intros [= <-]. split; [congruence|].
      exists p', t. split_and!; try done.
      * destruct (pVars (mTracer s)) as [v|] eqn:Hv.
        -- destruct (Hold v eq_refl) as [-> _].
           destruct (wf_vars _ Hwf v Hv) as (_ & p0 & t0 & ? & ? & ? & ?). congruence.
        -- destruct (Hnew eq_refl). congruence.
      * destruct (pVars (mTracer s)) as [v|] eqn:Hv.
        -- destruct (Hold v eq_refl) as [_ ->].
           destruct (wf_vars _ Hwf v Hv) as (_ & p0 & t0 & ? & ? & ? & ?). congruence.
        -- by destruct (Hnew eq_refl).
    + intros id. unfold tracer_ids. rewrite Hp', Ht', Hv', Hdev, Hid, Hvid.
      pose proof (wf_ids _ Hwf) as Hids. unfold tracer_ids, vars_for in *.
      rewrite Hp, Ht in Hids.
      rewrite !elem_of_app, !list_elem_of_singleton.
      destruct (pVars (mTracer s)) as [v|]; cbn.
      * intros [-> | [-> | ->]]; apply Hids;
          rewrite !elem_of_app, !list_elem_of_singleton; auto.
      * intros [-> | [-> | ->]]; [| |lia];
          (etrans; [apply Hids|lia]);
          rewrite !elem_of_app, !list_elem_of_singleton; auto.
  - by rewrite (FG_execute_no_scene _ _ _ Hsc).
Qed.

Lemma FG_reachable_wf s : reachable s → wf s.
Proof.
  induction 1 as [pDevice nodesSize | s scenes pScene _ _ | s scenes rd _ IH _].
  - apply FG_construct_wf.
  - apply FG_setScene_wf.
  - by apply FG_execute_wf.
Qed.

End FocalGuidingFacts.

(** * Facts about the raster passes *)

Section RasterFacts.

Ltac run_pipeline :=
  unfold drawPipeline, createTargetFbo, when, mbind, mret, M_mbind, M_mret, M_bind, M_ret,
    modify, get, emit, throw, fault; cbn.

(** What [setScene] does to the pipeline members. *)
Lemma setScenePipeline_spec scenes pScene p :
  let p' := setScenePipeline scenes pScene p in
  mpScene p' = pScene ∧
  prog_id (mpProgram p') = prog_id (mpProgram p) ∧
  prog_defines (mpProgram p') =
    match pScene with
    | Some scene => addDefines (getSceneDefines (scenes scene)) (prog_defines (mpProgram p))
    | None => prog_defines (mpProgram p)
    end ∧
  mpVars p' = Some (ProgramVars_create (next_id (mpDevice p)) (getReflector (mpProgram p'))) ∧
  next_id (mpDevice p') = S (next_id (mpDevice p)) ∧
  mpGraphicsState p' = mpGraphicsState p ∧
  mpRasterState p' = mpRasterState p.
Proof.
  destruct p as [[id] sc [pid pdesc pdef ptc] gs rs v].
  destruct pScene; cbn; by split_and!.
Qed.

(** What the clear-and-draw tail of [execute] does. *)
Lemma drawPipeline_spec rd p :
  let o := drawPipeline rd p in
  let p' := state_of o in
  mpScene p' = mpScene p ∧
  mpProgram p' = mpProgram p ∧
  vars_id <$> mpVars p' = vars_id <$> mpVars p ∧
  vars_reflector <$> mpVars p' = vars_reflector <$> mpVars p ∧
  next_id (mpDevice p') = S (next_id (mpDevice p)) ∧
  match mpScene p, mpVars p with
  | Some scene, Some v =>
      o = Returned tt p' [clear_target rd p; rasterize_scene rd p scene v]
  | Some scene, None =>
      o = Faulted (NullDereference "mpVars") p' [clear_target rd p]
  | None, _ =>
      o = Returned tt p' [clear_target rd p]
  end.
Proof.
  destruct p as [[id] [scene|] prog gs rs [[vid vr vb]|]];
    run_pipeline; by split_and!.
Qed.

Lemma constructPipeline_wf pDevice shaderFile :
  pipeline_wf (constructPipeline pDevice shaderFile).
Proof. destruct pDevice as [id]. by split. Qed.

Lemma setScenePipeline_wf scenes pScene p :
  pipeline_wf (setScenePipeline scenes pScene p).
Proof.
  destruct (setScenePipeline_spec scenes pScene p) as (_ & _ & _ & Hv & _).
  split; rewrite Hv; [done|]. by intros v [= <-].
Qed.

Lemma drawPipeline_wf rd p :
  pipeline_wf p → pipeline_wf (state_of (drawPipeline rd p)).
Proof.
  intros [Hvars Hcur].
  destruct (drawPipeline_spec rd p) as (Hsc & Hp & Hid & Hr & _).
  split.
  - rewrite Hsc. intros Hne Hv. rewrite Hv in Hid.
    destruct (mpVars p); [done|]. by apply Hvars.
  - intros v Hv. rewrite Hv, Hp in *.
    destruct (mpVars p) as [v0|]; [|done].
    injection Hr as Hr. rewrite Hr. by apply Hcur.
Qed.

Lemma MTP_reachable_wf s : MyTestPass.reachable s → pipeline_wf s.
Proof.
  induction 1 as [pDevice | s scenes pScene _ _ | s rd _ IH _].
  - apply constructPipeline_wf.
  - apply setScenePipeline_wf.
  - by apply drawPipeline_wf.
Qed.

End RasterFacts.

(** * Facts about GuidedRayViz *)

Section GuidedRayVizFacts.
Context {host : HostApi}.
Import GuidedRayViz.

Lemma printRay_spec rayNodes i s :
  let o := printRay rayNodes i s in
  state_of o = s ∧ throws o = false ∧
  Forall (λ e, is_printf e = true) (trace_of o) ∧
  (returns o = true ↔ is_Some (rayNodes !! i)) ∧
  (returns o = true → length (trace_of o) = 4%nat).
Proof.
  unfold printRay, mbind, M_mbind, M_bind, emit, fault. cbn.
  destruct (rayNodes !! i) as [[[[x1 y1] z1] [[x2 y2] z2] [[r g] b]]|]; cbn.
  - split_and!; [done | done | by repeat constructor | | done]. split; eauto.
  - split_and!; [done | done | by repeat constructor | | done].
    split; [done|]. by intros [? [=]].
Qed.

Lemma printRays_spec rayNodes s n : ∀ a,
  let o := for_each (seq a n) (printRay rayNodes) s in
  state_of o = s ∧ throws o = false ∧
  Forall (λ e, is_printf e = true) (trace_of o) ∧
  ((a + n ≤ length rayNodes)%nat → returns o = true ∧ length (trace_of o) = (4 * n)%nat).
Proof.
  induction n as [|n IH]; intros a; cbn.
  - by split_and!.
  - unfold mbind, M_mbind, M_bind.
    destruct (printRay_spec rayNodes a s) as (Hs & Ht & Hp & Hr & Hl).
    destruct (printRay rayNodes a s) as [[] s1 tr1 | w s1 tr1 | x s1 tr1]; cbn in *; [|done|].
    + subst s1. destruct (IH (S a)) as (Hs' & Ht' & Hp' & Hr').
      destruct (for_each (seq (S a) n) (printRay rayNodes) s) as [[] s2 tr2 | w s2 tr2 | x s2 tr2];
        cbn in *; (split_and!; [done | done | by apply Forall_app | ]).
      * intros Hle. rewrite length_app, Hl by done.
        destruct Hr' as [_ ->]; [lia|]. split; [done|lia].
      * done.
      * intros Hle. destruct Hr' as [? _]; [lia|done].
    + split_and!; try done. intros Hle. destruct Hr as [_ Hr].
      assert (is_Some (rayNodes !! a)) as Hsome by (apply lookup_lt_is_Some; lia).
      by apply Hr in Hsome.
Qed.


Lemma generateRaysGeometry_spec s buffer :
  mGuidedRays s = Some buffer →
  let o := generateRaysGeometry s in
  let count := mGuidedRaysSize s in
  state_of o = s ∧ throws o = false ∧
  ∃ prints, trace_of o = GetElements buffer 0 count :: prints ∧
    Forall (λ e, is_printf e = true) prints ∧
    (count = 0 → prints = []) ∧
    ((N.to_nat count ≤ length (getElements buffer 0 count))%nat →
       returns o = true ∧ length prints = (4 * N.to_nat count)%nat).
Proof.
  intros Hb. unfold generateRaysGeometry, mbind, M_mbind, M_bind, get, emit.
  rewrite Hb. cbn.
  destruct (printRays_spec (getElements buffer 0 (mGuidedRaysSize s)) s
              (N.to_nat (mGuidedRaysSize s)) 0) as (Hs & Ht & Hp & Hr).
  assert (mGuidedRaysSize s = 0 →
          for_each (seq 0 (N.to_nat (mGuidedRaysSize s)))
            (printRay (getElements buffer 0 (mGuidedRaysSize s))) s = Returned tt s [])
    as Hzero by (by intros ->).
  destruct (for_each _ _ s) as [[] s1 tr1 | w s1 tr1 | x s1 tr1]; cbn in *; [|done|].
  - split_and!; [done..|]. exists tr1. split_and!; [done | done | | done].
    intros Hz. by injection (Hzero Hz).
  - split_and!; [done..|]. exists tr1. split_and!; [done | done | | done].
    intros Hz. by specialize (Hzero Hz).
Qed.

Lemma on_pipeline_drawPipeline rd s :
  on_pipeline (drawPipeline rd) s =
    match drawPipeline rd (pipeline s) with
    | Returned a p tr => Returned a (set_pipeline p s) tr
    | Thrown w p tr => Thrown w (set_pipeline p s) tr
    | Faulted x p tr => Faulted x (set_pipeline p s) tr
    end.
Proof. reflexivity. Qed.

Lemma GRV_execute_no_scene rd s :
  mpScene (pipeline s) = None → execute rd s = Returned tt s [].
Proof.
  intros Hsc. unfold execute, mbind, M_mbind, M_bind, get. by rewrite Hsc.
Qed.

Lemma GRV_execute_scene rd s scene v :
  mpScene (pipeline s) = Some scene →
  mpVars (pipeline s) = Some v →
  let o := execute rd s in
  let count := gGuidedRaysSize (getDictionary rd) in
  let frame := [clear_target rd (pipeline s); rasterize_scene rd (pipeline s) scene v] in
  throws o = false ∧
  mpRayScene (state_of o) = mpRayScene s ∧
  (returns o = true →
     pipeline (state_of o) = state_of (drawPipeline rd (pipeline s))) ∧
  (returns o = false → pipeline (state_of o) = pipeline s) ∧
  if decodes rd then
    ∃ buffer prints,
      gGuidedRays (getDictionary rd) = Some buffer ∧
      Forall (λ e, is_printf e = true) prints ∧
      (count = 0 → prints = []) ∧
      ((N.to_nat count ≤ length (getElements buffer 0 count))%nat →
         returns o = true ∧ length prints = (4 * N.to_nat count)%nat) ∧
      trace_of o =
        GetElements buffer 0 count :: prints ++ (if returns o then frame else [])
  else o = Returned tt (state_of o) frame.
Proof.
  intros Hsc Hv o count frame. subst o count frame.
  pose proof (drawPipeline_spec rd (pipeline s)) as Hdraw. cbn zeta in Hdraw.
  rewrite Hsc, Hv in Hdraw. destruct Hdraw as (_ & _ & _ & _ & _ & Hdraw).
  destruct s as [sz rays comp rs p]. cbn in Hsc, Hv, Hdraw.
  unfold execute, decodes, mbind, M_mbind, M_bind, get, modify, when. cbn.
  rewrite Hsc. cbn.
  destruct (gComputeRays (getDictionary rd)); cbn;
    [destruct (gGuidedRays (getDictionary rd)) as [buffer|] eqn:Hb; cbn|].
  - set (s1 := {| mGuidedRaysSize := gGuidedRaysSize (getDictionary rd);
                  mGuidedRays := Some buffer; mComputeRays := true;
                  mpRayScene := rs; pipeline := p |}).
    destruct (generateRaysGeometry_spec s1 buffer eq_refl)
      as (Hs & Ht & prints & Htr & Hp & Hz & Hr).
    destruct (generateRaysGeometry s1) as [[] s2 tr2 | w s2 tr2 | x s2 tr2];
      cbn in Hs, Ht, Htr, Hr; subst; [|done|].
    + rewrite on_pipeline_drawPipeline. cbn. rewrite Hdraw. cbn.
      split_and!; [done..|]. exists buffer, prints. split_and!; try done.
    + cbn. split_and!; [done..|]. exists buffer, prints. split_and!; try done.
      by rewrite app_nil_r.
  - unfold mret, M_mret, M_ret. rewrite on_pipeline_drawPipeline. cbn. rewrite Hdraw. cbn.
    by split_and!.
  - unfold mret, M_mret, M_ret. rewrite on_pipeline_drawPipeline. cbn. rewrite Hdraw. cbn.
    by split_and!.
Qed.

Lemma GRV_setScene_spec scenes pScene s :
  setScene scenes pScene s =
    Returned tt (set_pipeline (setScenePipeline scenes pScene (pipeline s)) s) [].
Proof. reflexivity. Qed.

Lemma pipeline_set_pipeline p s : pipeline (set_pipeline p s) = p.
Proof. by destruct s. Qed.

Lemma GRV_reachable_wf s : reachable s → pipeline_wf (pipeline s).
Proof.
  induction 1 as [pDevice | s scenes pScene _ _ | s rd _ IH Hf].
  - apply constructPipeline_wf.
  - rewrite GRV_setScene_spec. cbn. rewrite pipeline_set_pipeline.
    apply setScenePipeline_wf.
  - destruct (mpScene (pipeline s)) as [scene|] eqn:Hsc.
    + destruct (mpVars (pipeline s)) as [v|] eqn:Hv.
      * destruct (GRV_execute_scene rd s scene v Hsc Hv) as (_ & _ & Hret & Hnot & _).
        destruct (returns (execute rd s)) eqn:Hr.
        -- rewrite Hret by done. by apply drawPipeline_wf.
        -- by rewrite Hnot.
      * destruct (pwf_vars _ IH); [congruence|done].
    + by rewrite GRV_execute_no_scene.
Qed.

End GuidedRayVizFacts.

(** * Which objects a frame uses *)

Section FocalGuidingUses.
Context {host : HostApi}.
Import FocalGuiding.

Lemma elem_of_draws (e : Event) (tr : list Event) :
  e ∈ draws tr ↔ e ∈ tr ∧ is_draw e = true.
Proof.
  unfold draws, keep. rewrite list_elem_of_omap. split.
  - intros (x & Hx & Hk). destruct (is_draw x) eqn:Hd; [|done].
    injection Hk as <-. done.
  - intros [He Hd]. exists e. by rewrite Hd.
Qed.

(** The objects [setScene] leaves in [mTracer] are created by that call. *)
Lemma FG_setScene_fresh scenes pScene s id :
  id ∈ tracer_ids (state_of (setScene scenes pScene s)) →
  (next_id (mpDevice s) ≤ id)%nat.
Proof.
  destruct (FG_setScene_spec scenes pScene s) as (_ & _ & Hv & _ & _ & Hp).
  unfold tracer_ids. rewrite Hv. destruct pScene as [scene|].
  - destruct Hp as ((p & t & -> & -> & Ht & Hp & _) & _).
    rewrite !elem_of_app, !list_elem_of_singleton, elem_of_nil. lia.
  - destruct Hp as (-> & -> & _). by intros ?%elem_of_nil.
Qed.

(** The dispatch of a frame is given the program of the pass and program
    vars made for that program, both held by the pass when [execute] ends;
    each is an object the pass held when [execute] began or the one object
    [execute] creates first. *)
Lemma FG_execute_dispatch scenes rd s e :
  wf s →
  e ∈ trace_of (execute scenes rd s) → is_draw e = true →
  ∃ scene p v dims,
    e = Raytrace scene (prog_id p) (vars_id (rt_vars v)) dims ∧
    pProgram (mTracer (state_of (execute scenes rd s))) = Some p ∧
    pVars (mTracer (state_of (execute scenes rd s))) = Some v ∧
    refl_program (vars_reflector (rt_vars v)) = prog_id p ∧
    (prog_id p ∈ tracer_ids s) ∧
    (vars_id (rt_vars v) ∈ tracer_ids s ∨ vars_id (rt_vars v) = next_id (mpDevice s)).
Proof.
  intros Hwf He Hd.
  assert (e ∈ draws (trace_of (execute scenes rd s))) as Hin by by apply elem_of_draws.
  pose proof (FG_execute_wf scenes rd s Hwf) as Hwf'.
  destruct (mpScene s) as [scene|] eqn:Hsc.
  - destruct (is_set (getUpdates (scenes scene)) GeometryChanged) eqn:Hg.
    { rewrite (FG_execute_geometry_changed _ _ _ _ Hsc Hg) in Hin.
      by apply elem_of_nil in Hin. }
    destruct (wf_pipeline _ Hwf) as (p & t & Hp & Ht); [congruence|].
    destruct (FG_execute_bound scenes rd s scene p t Hsc Hp Ht Hg)
      as ((p' & v' & Hp' & Hid & Ht' & Hv' & Hvid & _) & _ & _ & _ & Hend).
    destruct (assertsEnabled && negb (dims_ok rd)); destruct Hend as [_ Hdraws];
      rewrite Hdraws in Hin; [by apply elem_of_nil in Hin|].
    apply list_elem_of_singleton in Hin as ->.
    exists scene, p', v', (fst (getDefaultTextureDims rd), snd (getDefaultTextureDims rd), 1).
    destruct (wf_vars _ Hwf' v' Hv') as (_ & p0 & t0 & Hp0 & _ & Hrefl & _).
    rewrite Hp' in Hp0. injection Hp0 as <-.
    rewrite Hvid. split_and!; [by rewrite Hid | done | done | done | |].
    + rewrite Hid. unfold tracer_ids. rewrite Hp. rewrite !elem_of_app, list_elem_of_singleton. auto.
    + unfold vars_for, tracer_ids. destruct (pVars (mTracer s)); [left|by right].
      rewrite !elem_of_app, !list_elem_of_singleton. auto.
  - rewrite (FG_execute_no_scene _ _ _ Hsc) in Hin.
    destruct (getTexture rd "color"); by apply elem_of_nil in Hin.
Qed.

End FocalGuidingUses.

Section GuidedRayVizMore.
Context {host : HostApi}.
Import GuidedRayViz.

(** [execute] changes the pipeline members through [drawPipeline] only. *)
Lemma GRV_execute_pipeline rd s :
  pipeline (state_of (execute rd s)) = pipeline s ∨
  pipeline (state_of (execute rd s)) = state_of (drawPipeline rd (pipeline s)).
Proof.
  destruct (mpScene (pipeline s)) as [scene|] eqn:Hsc.
  - destruct s as [sz rays comp rs p]. cbn in Hsc.
    unfold execute, mbind, M_mbind, M_bind, get, modify, when. cbn.
    rewrite Hsc. cbn.
    assert (∀ s1 : State, pipeline s1 = p →
              pipeline (state_of (on_pipeline (drawPipeline rd) s1)) =
              state_of (drawPipeline rd p)) as Hdraw.
    { intros s1 <-. rewrite on_pipeline_drawPipeline.
      destruct (drawPipeline rd (pipeline s1)); cbn; apply pipeline_set_pipeline. }
    destruct (gComputeRays (getDictionary rd)); cbn;
      [destruct (gGuidedRays (getDictionary rd)) as [buffer|] eqn:Hb; cbn|].
    + set (s1 := {| mGuidedRaysSize := gGuidedRaysSize (getDictionary rd);
                    mGuidedRays := Some buffer; mComputeRays := true;
                    mpRayScene := rs; pipeline := p |}).
      destruct (generateRaysGeometry_spec s1 buffer eq_refl) as (Hs & Ht & _).
      destruct (generateRaysGeometry s1) as [[] s2 tr2 | w s2 tr2 | x s2 tr2];
        cbn in Hs, Ht; subst; [|done|by left].
      right. specialize (Hdraw s1 eq_refl).
      by destruct (on_pipeline (drawPipeline rd) s1).
    + right. unfold mret, M_mret, M_ret.
      set (s1 := Build_State _ _ _ _ _). specialize (Hdraw s1 eq_refl).
      by destruct (on_pipeline (drawPipeline rd) s1).
    + right. unfold mret, M_mret, M_ret.
      set (s1 := Build_State _ _ _ _ _). specialize (Hdraw s1 eq_refl).
      by destruct (on_pipeline (drawPipeline rd) s1).
  - left. by rewrite GRV_execute_no_scene.
Qed.

(** No member function assigns [mpRayScene]: no scene is ever built from
    the decoded rays. *)
Lemma GRV_reachable_no_ray_scene s : reachable s → mpRayScene s = None.
Proof.
  induction 1 as [pDevice | s scenes pScene _ IH | s rd Hreach IH Hf].
  - done.
  - rewrite GRV_setScene_spec. cbn. by destruct s.
  - destruct (mpScene (pipeline s)) as [scene|] eqn:Hsc.
    + destruct (mpVars (pipeline s)) as [v|] eqn:Hv.
      * destruct (GRV_execute_scene rd s scene v Hsc Hv) as (_ & Hrs & _). congruence.
      * destruct (pwf_vars _ (GRV_reachable_wf _ Hreach)); [congruence|done].
    + by rewrite GRV_execute_no_scene.
Qed.

End GuidedRayVizMore.

(** * The properties *)

(** The literal [0.9f] is the binary32 number nearest to 0.9: it is
    15099494 / 2^24, and 0.9 * 2^24 lies within a half of 15099494. *)
Example f32_0_9_nearest :
  f32_0_9 = (15099494 / 16777216)%float ∧
  (2 * Z.abs (9 * 16777216 - 10 * 15099494) ≤ 10)%Z.
Proof. split; [by vm_compute | by vm_compute]. Qed.

Lemma sampleBound_reachable : FocalGuiding.reachable (host := sampleHost) sampleBound.
Proof. apply FocalGuiding.reach_setScene, FocalGuiding.reach_construct. Qed.

(** C1 (as stated, refuted): the initializer does not give weight 0.5 to
    every child slot 0 through 6; slot 1 has weight 0.9. *)
Lemma C1_counterexample :
  ¬ (∀ node, node ∈ FocalGuiding.initDensities →
       ∀ i c, childs node !! i = Some c →
         index c = 0 ∧ density c = FocalGuiding.spec_weight i).
Proof.
  intros Hspec.
  destruct (Hspec _ (list_elem_of_here _ _) 1%nat _ eq_refl) as [_ Hd].
  vm_compute in Hd. discriminate Hd.
Qed.

(** C1 (amended): [prepareVars], run with a scene, a program and a binding
    table, returns having created the density buffer from a single
    initializer record with 8 children, every child index 0, and density
    weights 0.5 for the child slots 0, 2, 4 and 6, 0.9 for the slots 1, 3
    and 5, and 1.0 for slot 7. *)
Theorem C1_density_initializer {host : HostApi} scenes s scene p t :
  FocalGuiding.mpScene s = Some scene →
  FocalGuiding.pProgram (FocalGuiding.mTracer s) = Some p →
  FocalGuiding.pBindingTable (FocalGuiding.mTracer s) = Some t →
  let o := FocalGuiding.prepareVars scenes s in
  returns o = true ∧
  ∃ buffer node,
    FocalGuiding.mNodes (state_of o) = Some buffer ∧
    buf_initData buffer = [node] ∧
    index <$> childs node = replicate 8 0 ∧
    density <$> childs node =
      [0.5; f32_0_9; 0.5; f32_0_9; 0.5; f32_0_9; 0.5; 1.0]%float.
Proof.
  destruct s as [[dev] sc [pp pb pv] nodes sz]. cbn. intros -> -> ->.
  unfold FocalGuiding.prepareVars, FocalGuiding.on_pProgram, FALCOR_ASSERT,
    mbind, mret, M_mbind, M_mret, M_bind, M_ret, modify, get, FocalGuiding.create, fault.
  cbn. rewrite !andb_false_r. cbn.
  split; [done|]. by eexists _, _.
Qed.

(** C1 on the sample pass bound to scene 0. *)
Lemma C1_density_initializer_witness :
  ∃ buffer node,
    FocalGuiding.mNodes
      (state_of (FocalGuiding.prepareVars (host := sampleHost) sampleScenes sampleBound))
      = Some buffer ∧
    buf_initData buffer = [node] ∧
    index <$> childs node = replicate 8 0 ∧
    density <$> childs node =
      [0.5; f32_0_9; 0.5; f32_0_9; 0.5; f32_0_9; 0.5; 1.0]%float.
Proof.
  refine (proj2 (C1_density_initializer (host := sampleHost) sampleScenes sampleBound
                   0%nat _ _ _ _ _));
    vm_compute; reflexivity.
Defined.

(** ** Execute without a scene *)

(** [FocalGuiding::execute] without a scene clears its declared output and
    neither draws nor dispatches. *)
Lemma FG_no_scene_clears {host : HostApi} scenes rd s :
  FocalGuiding.mpScene s = None →
  let o := FocalGuiding.execute scenes rd s in
  returns o = true ∧ clears_outputs FocalGuiding.reflect rd (trace_of o) ∧
  draws (trace_of o) = [].
Proof.
  intros Hsc. rewrite (FG_execute_no_scene _ _ _ Hsc). cbn.
  split; [done|]. split.
  - intros name t Hname Ht. cbn in Hname.
    apply list_elem_of_singleton in Hname as ->. rewrite Ht. cbn.
    apply list_elem_of_here.
  - by destruct (getTexture rd "color").
Qed.

(** [MyTestPass::execute] without a scene clears its declared output and
    does not draw. *)
Lemma MTP_no_scene_clears rd s :
  mpScene s = None →
  let o := MyTestPass.execute rd s in
  returns o = true ∧ clears_outputs MyTestPass.reflect rd (trace_of o) ∧
  draws (trace_of o) = [].
Proof.
  intros Hsc. unfold MyTestPass.execute.
  destruct (drawPipeline_spec rd s) as (_ & _ & _ & _ & _ & Ho).
  rewrite Hsc in Ho. rewrite Ho. cbn.
  split; [done|]. split; [|done].
  intros name t Hname Ht. cbn in Hname.
  apply list_elem_of_singleton in Hname as ->.
  unfold cleared, clear_target. cbn. rewrite Ht. cbn.
  apply list_elem_of_here.
Qed.

(** C2 (the code at the failing input): [GuidedRayViz::execute] on a newly
    constructed pass, which has no scene, returns at once: it issues no
    call at all, so the texture of its declared output "output" is not
    cleared. *)
Theorem C2_GuidedRayViz_leaves_output_uncleared :
  let s := GuidedRayViz.construct sampleDevice in
  let rd := sampleFrame false 0 in
  let o := GuidedRayViz.execute (host := sampleHost) rd s in
  mpScene (GuidedRayViz.pipeline s) = None ∧
  declared_outputs GuidedRayViz.reflect = ["output"] ∧
  getTexture rd "output" = Some 101%nat ∧
  o = Returned tt s [] ∧
  ¬ clears_outputs GuidedRayViz.reflect rd (trace_of o).
Proof.
  cbn zeta. split_and!; [done..|].
  intros Hclears.
  specialize (Hclears "output" 101%nat (list_elem_of_here _ _) eq_refl).
  by apply elem_of_nil in Hclears.
Qed.

(** ** Geometry changes *)

(** C6: [FocalGuiding::execute] on a pass with a scene whose update flags
    include [GeometryChanged] throws; the exception leaves with the members
    of the pass unchanged (no define was added, nothing was bound) and with
    no call made into the host (no dispatch). *)
Theorem C6_geometry_change_throws {host : HostApi} scenes rd s scene :
  FocalGuiding.mpScene s = Some scene →
  is_set (getUpdates (scenes scene)) GeometryChanged = true →
  FocalGuiding.execute scenes rd s =
    Thrown "DirectRayTracer: This render pass does not support scene geometry changes." s [].
Proof. apply FG_execute_geometry_changed. Qed.

(** C6 on the sample pass bound to scene 2. *)
Lemma C6_geometry_change_throws_witness :
  FocalGuiding.execute (host := sampleHost) sampleScenes (sampleFrame false 0) sampleChanged =
    Thrown "DirectRayTracer: This render pass does not support scene geometry changes."
           sampleChanged [].
Proof.
  apply (C6_geometry_change_throws (host := sampleHost) sampleScenes (sampleFrame false 0)
           sampleChanged 2%nat); vm_compute; reflexivity.
Defined.

(** ** The dispatch *)

(** C9: [FocalGuiding::execute] on a pass with a scene whose geometry did
    not change returns after exactly one draw or dispatch call, a ray
    dispatch of dimensions (x, y, 1) for the default texture dimensions
    (x, y) of the frame.  The dimensions are positive, as the function
    asserts, or assertions are compiled out. *)
Theorem C9_one_dispatch {host : HostApi} scenes rd s scene :
  FocalGuiding.reachable s →
  FocalGuiding.mpScene s = Some scene →
  is_set (getUpdates (scenes scene)) GeometryChanged = false →
  assertsEnabled = false ∨
    (0 < fst (getDefaultTextureDims rd) ∧ 0 < snd (getDefaultTextureDims rd)) →
  let o := FocalGuiding.execute scenes rd s in
  returns o = true ∧
  ∃ program vars,
    draws (trace_of o) =
      [Raytrace scene program vars
         (fst (getDefaultTextureDims rd), snd (getDefaultTextureDims rd), 1)].
Proof.
  intros Hreach Hsc Hg Hdims o. subst o.
  destruct (FocalGuiding.wf_pipeline _ (FG_reachable_wf _ Hreach)) as (p & t & Hp & Ht);
    [congruence|].
  destruct (FG_execute_bound scenes rd s scene p t Hsc Hp Ht Hg) as (_ & _ & _ & _ & Ho).
  assert (assertsEnabled && negb (FocalGuiding.dims_ok rd) = false) as Hok.
  { destruct Hdims as [-> | [Hx Hy]]; [done|].
    apply N.ltb_lt in Hx, Hy. unfold FocalGuiding.dims_ok. rewrite Hx, Hy.
    apply andb_false_r. }
  rewrite Hok in Ho. destruct Ho as [-> Hd]. split; [done|]. eauto.
Qed.

(** C9 on the sample pass bound to scene 0, for a 640 by 480 frame. *)
Lemma C9_one_dispatch_witness :
  ∃ program vars,
    draws (trace_of (FocalGuiding.execute (host := sampleHost) sampleScenes
                       (sampleFrame false 0) sampleBound)) =
      [Raytrace 0%nat program vars (640, 480, 1)].
Proof.
  refine (proj2 (C9_one_dispatch (host := sampleHost) sampleScenes (sampleFrame false 0)
                   sampleBound 0%nat sampleBound_reachable _ _ _)).
  - reflexivity.
  - reflexivity.
  - right. split; reflexivity.
Defined.

(** ** The assertions *)

(** The one fault [execute] can end with, in a state that satisfies the
    invariant, is the assertion on the dispatch dimensions. *)
Lemma FG_execute_fault {host : HostApi} scenes rd s x s' tr :
  FocalGuiding.wf s →
  FocalGuiding.execute scenes rd s = Faulted x s' tr →
  x = AssertionFailed FocalGuiding.kTargetDimAssert.
Proof.
  intros Hwf Ho.
  destruct (FocalGuiding.mpScene s) as [scene|] eqn:Hsc;
    [|by rewrite (FG_execute_no_scene _ _ _ Hsc) in Ho].
  destruct (is_set (getUpdates (scenes scene)) GeometryChanged) eqn:Hg.
  { by rewrite (FG_execute_geometry_changed _ _ _ _ Hsc Hg) in Ho. }
  destruct (FocalGuiding.wf_pipeline _ Hwf) as (p & t & Hp & Ht); [congruence|].
  destruct (FG_execute_bound scenes rd s scene p t Hsc Hp Ht Hg) as (_ & _ & _ & _ & Hend).
  destruct (assertsEnabled && negb (FocalGuiding.dims_ok rd));
    destruct Hend as [Hend _]; rewrite Hend in Ho; [|done].
  by injection Ho as <- _ _.
Qed.

(** C10: whatever the state [setScene] is called in, if it leaves a scene
    then it leaves a program and a binding table; and [execute], on a pass
    with a scene at any point of its life, makes no null dereference and
    fails none of the assertions on [mpScene], [mTracer.pProgram] and
    [mTracer.pVars]: the one fault it can end with is the assertion on the
    dispatch dimensions. *)
Theorem C10_assertions_hold {host : HostApi} scenes rd s scene :
  FocalGuiding.reachable s →
  FocalGuiding.mpScene s = Some scene →
  (∀ scenes' pScene s0,
     let s' := state_of (FocalGuiding.setScene scenes' pScene s0) in
     FocalGuiding.mpScene s' ≠ None →
     is_Some (FocalGuiding.pProgram (FocalGuiding.mTracer s')) ∧
     is_Some (FocalGuiding.pBindingTable (FocalGuiding.mTracer s'))) ∧
  (∀ x s' tr,
     FocalGuiding.execute scenes rd s = Faulted x s' tr →
     x = AssertionFailed FocalGuiding.kTargetDimAssert ∧
     x ≠ AssertionFailed "mpScene" ∧
     x ≠ AssertionFailed "mTracer.pProgram" ∧
     x ≠ AssertionFailed "mTracer.pVars").
Proof.
  intros Hreach Hsc. split.
  - intros scenes' pScene s0 s' Hne. subst s'.
    destruct (FocalGuiding.wf_pipeline _ (FG_setScene_wf scenes' pScene s0) Hne)
      as (p & t & -> & ->).
    eauto.
  - intros x s' tr Ho.
    rewrite (FG_execute_fault scenes rd s x s' tr (FG_reachable_wf _ Hreach) Ho).
    by split_and!.
Qed.

(** C10 on the sample pass bound to scene 0, for the frame with no width:
    [execute] faults, and not on the assertion on [mTracer.pVars]. *)
Lemma C10_assertions_hold_witness :
  ∃ x s' tr,
    FocalGuiding.execute (host := sampleHost) sampleScenes sampleEmptyFrame sampleBound
      = Faulted x s' tr ∧
    x ≠ AssertionFailed "mTracer.pVars".
Proof.
  eexists _, _, _. split; [by vm_compute|].
  refine (proj2 (proj2 (proj2 (proj2 (C10_assertions_hold (host := sampleHost) sampleScenes
            sampleEmptyFrame sampleBound 0%nat sampleBound_reachable _) _ _ _ _)))).
  - reflexivity.
  - by vm_compute.
Defined.

(** ** Warnings *)

(** C7: [setScene] with a scene that has custom primitives logs a warning
    and goes on to build the binding table and the program; [execute] with
    an open aperture and no "viewW" input logs a warning, does not throw,
    and goes on to the dispatch. *)
Theorem C7_warnings_continue {host : HostApi} scenes scenes' rd s0 custom s scene :
  hasGeometryType (scenes custom) Custom = true →
  FocalGuiding.reachable s →
  FocalGuiding.mpScene s = Some scene →
  is_set (getUpdates (scenes' scene)) GeometryChanged = false →
  PrimFloat.ltb 0 (getApertureRadius (getCamera (scenes' scene))) = true →
  getTexture rd FocalGuiding.kInputViewDir = None →
  (let o := FocalGuiding.setScene scenes (Some custom) s0 in
   o = Returned tt (state_of o) [FocalGuiding.geometry_warning] ∧
   FocalGuiding.mpScene (state_of o) = Some custom ∧
   is_Some (FocalGuiding.pProgram (FocalGuiding.mTracer (state_of o))) ∧
   is_Some (FocalGuiding.pBindingTable (FocalGuiding.mTracer (state_of o)))) ∧
  (let o := FocalGuiding.execute scenes' rd s in
   throws o = false ∧
   keep is_warning (trace_of o) = [FocalGuiding.dof_warning] ∧
   (assertsEnabled = false ∨ FocalGuiding.dims_ok rd = true →
    returns o = true ∧
    ∃ program vars,
      draws (trace_of o) =
        [Raytrace scene program vars
           (fst (getDefaultTextureDims rd), snd (getDefaultTextureDims rd), 1)])).
Proof.
  intros Hcustom Hreach Hsc Hg Hdof Hview. cbv zeta. split.
  - destruct (FG_setScene_spec scenes (Some custom) s0)
      as (Ho & Hsc' & _ & _ & _ & (p & t & -> & -> & _) & _ & Htr).
    rewrite Hcustom in Htr. rewrite Htr in Ho. by split_and!.
  - destruct (FocalGuiding.wf_pipeline _ (FG_reachable_wf _ Hreach)) as (p & t & Hp & Ht);
      [congruence|].
    destruct (FG_execute_bound scenes' rd s scene p t Hsc Hp Ht Hg)
      as (_ & _ & _ & Hwarn & Hend).
    rewrite Hdof, Hview in Hwarn. cbn in Hwarn. split_and!; [|done|].
    + destruct (assertsEnabled && negb (FocalGuiding.dims_ok rd));
        destruct Hend as [-> _]; done.
    + intros Hdims.
      assert (assertsEnabled && negb (FocalGuiding.dims_ok rd) = false) as Hok.
      { destruct Hdims as [-> | ->]; [done|apply andb_false_r]. }
      rewrite Hok in Hend. destruct Hend as [-> Hd]. split; [done|]. eauto.
Qed.

Lemma sampleDegraded_reachable : FocalGuiding.reachable (host := sampleHost) sampleDegraded.
Proof. apply FocalGuiding.reach_setScene, FocalGuiding.reach_construct. Qed.

(** C7 on scene 1, bound to a new pass and then run for one frame. *)
Lemma C7_warnings_continue_witness :
  trace_of (FocalGuiding.setScene sampleScenes (Some 1%nat)
              (FocalGuiding.construct sampleDevice 16))
    = [FocalGuiding.geometry_warning] ∧
  keep is_warning
    (trace_of (FocalGuiding.execute (host := sampleHost) sampleScenes (sampleFrame false 0)
                 sampleDegraded))
    = [FocalGuiding.dof_warning].
Proof.
  destruct (C7_warnings_continue (host := sampleHost) sampleScenes sampleScenes
              (sampleFrame false 0) (FocalGuiding.construct sampleDevice 16) 1%nat
              sampleDegraded 1%nat)
    as [(Hset & _) (_ & Hexec & _)];
    [reflexivity | exact sampleDegraded_reachable | reflexivity..|].
  split; [exact (f_equal trace_of Hset) | exact Hexec].
Defined.

(** ** Scene changes *)

(** C4: [setScene], called with any scene or none on a pass that has a
    scene, returns with no program vars and with none of the objects the
    pass held before (program, binding table, program vars) left in
    [mTracer]; without a new scene [mTracer] is left empty.  The next
    [execute] makes no null dereference, hands none of the former objects
    to the host, and dispatches with the program the pass then holds and
    program vars made for that program. *)
Theorem C4_scene_change_clears {host : HostApi} scenes pScene s old :
  FocalGuiding.reachable s →
  FocalGuiding.mpScene s = Some old →
  let set := FocalGuiding.setScene scenes pScene s in
  let s1 := state_of set in
  returns set = true ∧
  FocalGuiding.pVars (FocalGuiding.mTracer s1) = None ∧
  (∀ id, id ∈ FocalGuiding.tracer_ids s → id ∉ FocalGuiding.tracer_ids s1) ∧
  (pScene = None → FocalGuiding.tracer_ids s1 = []) ∧
  ∀ scenes' rd,
    let o := FocalGuiding.execute scenes' rd s1 in
    (∀ x s2 tr, o = Faulted x s2 tr → x = AssertionFailed FocalGuiding.kTargetDimAssert) ∧
    (∀ id, id ∈ FocalGuiding.tracer_ids s → id ∉ trace_of o ≫= FocalGuiding.pipeline_uses) ∧
    FocalGuiding.vars_current (state_of o) ∧
    (∀ scene program vars dims,
       Raytrace scene program vars dims ∈ trace_of o →
       ∃ p v, FocalGuiding.pProgram (FocalGuiding.mTracer (state_of o)) = Some p ∧
              FocalGuiding.pVars (FocalGuiding.mTracer (state_of o)) = Some v ∧
              prog_id p = program ∧ vars_id (FocalGuiding.rt_vars v) = vars ∧
              refl_program (vars_reflector (FocalGuiding.rt_vars v)) = program).
Proof.
  intros Hreach Hsc set s1. subst set s1.
  pose proof (FG_reachable_wf _ Hreach) as Hwf.
  pose proof (FG_setScene_wf scenes pScene s) as Hwf1.
  destruct (FG_setScene_spec scenes pScene s) as (Hret & Hsc1 & Hv1 & _ & _ & Hp1).
  assert (∀ id, id ∈ FocalGuiding.tracer_ids s →
                id ∉ FocalGuiding.tracer_ids (state_of (FocalGuiding.setScene scenes pScene s)))
    as Hfresh.
  { intros id Hold Hnew. apply FocalGuiding.wf_ids in Hold; [|done].
    apply FG_setScene_fresh in Hnew. lia. }
  split_and!.
  - by rewrite Hret.
  - done.
  - done.
  - intros ->. destruct Hp1 as (Hp & Ht & _).
    unfold FocalGuiding.tracer_ids. by rewrite Hp, Ht, Hv1.
  - intros scenes' rd o. subst o.
    set (s1 := state_of (FocalGuiding.setScene scenes pScene s)) in *.
    split_and!.
    + intros x s2 tr Ho. by apply (FG_execute_fault scenes' rd s1 x s2 tr).
    + intros id Hold Huse.
      apply list_elem_of_bind in Huse as (e & Huse & He).
      destruct e; try by apply elem_of_nil in Huse.
      destruct (FG_execute_dispatch scenes' rd s1 _ Hwf1 He eq_refl)
        as (sc & p & v & d & [= -> -> -> ->] & _ & _ & _ & Hpid & Hvid).
      cbn in Huse. apply elem_of_cons in Huse as [-> | Huse].
      * by apply (Hfresh _ Hold).
      * apply list_elem_of_singleton in Huse as ->.
        destruct Hvid as [Hvid | Hvid]; [by apply (Hfresh _ Hold)|].
        apply FocalGuiding.wf_ids in Hold; [|done].
        assert (next_id (FocalGuiding.mpDevice s)
                ≤ next_id (FocalGuiding.mpDevice s1))%nat; [|lia].
        subst s1. destruct pScene.
        -- destruct Hp1 as (_ & -> & _). lia.
        -- by destruct Hp1 as (_ & _ & -> & _).
    + apply FocalGuiding.wf_vars. by apply FG_execute_wf.
    + intros scene program vars dims He.
      destruct (FG_execute_dispatch scenes' rd s1 _ Hwf1 He eq_refl)
        as (sc & p & v & d & [= -> -> -> ->] & Hp & Hv & Hrefl & _).
      eauto 10.
Qed.

(** C4 on the sample pass bound to scene 0, changed to scene 1. *)
Lemma C4_scene_change_clears_witness :
  FocalGuiding.tracer_ids sampleBound = [1; 0]%nat ∧
  ∀ id, id ∈ FocalGuiding.tracer_ids sampleBound →
        id ∉ FocalGuiding.tracer_ids
               (state_of (FocalGuiding.setScene sampleScenes (Some 1%nat) sampleBound)).
Proof.
  split; [reflexivity|].
  exact (proj1 (proj2 (proj2
           (C4_scene_change_clears (host := sampleHost) sampleScenes (Some 1%nat) sampleBound
              0%nat sampleBound_reachable eq_refl)))).
Defined.

(** C5 (as stated, refuted): two [MyTestPass::setScene] calls in a row with
    scenes 0 and 1 leave the program object the constructor made, still
    carrying the define of scene 0 that scene 1 does not have, and the new
    program vars are made from it. *)
Lemma C5_counterexample :
  let s0 := MyTestPass.construct sampleDevice in
  let s1 := state_of (MyTestPass.setScene sampleScenes (Some 0%nat) s0) in
  let s2 := state_of (MyTestPass.setScene sampleScenes (Some 1%nat) s1) in
  prog_id (mpProgram s2) = prog_id (mpProgram s0) ∧
  (getSceneDefines (sampleScenes 1%nat)) !! "SCENE_A" = None ∧
  (prog_defines (mpProgram s2)) !! "SCENE_A" = Some "1" ∧
  ∃ v2, mpVars s2 = Some v2 ∧
        (refl_defines (vars_reflector v2)) !! "SCENE_A" = Some "1".
Proof. cbv zeta. split_and!; [by vm_compute..|]. eexists. split; by vm_compute. Qed.

(** C5 (amended): two [setScene] calls in a row with a scene each.  In
    FocalGuiding the second call leaves a program and a binding table that
    the pass did not hold after the first, the defines of the program are
    those of the second scene, and there are no program vars (the next
    [execute] makes them).  In MyTestPass and GuidedRayViz each call makes
    new program vars with no binding, from the program object the pass had
    all along, to which the defines of the first and then of the second
    scene were added. *)
Theorem C5_two_scene_changes scenes1 scenes2 a b :
  (∀ s,
     let s1 := state_of (FocalGuiding.setScene scenes1 (Some a) s) in
     let s2 := state_of (FocalGuiding.setScene scenes2 (Some b) s1) in
     ∃ p t,
       FocalGuiding.pProgram (FocalGuiding.mTracer s2) = Some p ∧
       FocalGuiding.pBindingTable (FocalGuiding.mTracer s2) = Some t ∧
       (prog_id p ∉ FocalGuiding.tracer_ids s1) ∧
       (FocalGuiding.sbt_id t ∉ FocalGuiding.tracer_ids s1) ∧
       prog_defines p = getSceneDefines (scenes2 b) ∧
       FocalGuiding.pVars (FocalGuiding.mTracer s2) = None) ∧
  (∀ s,
     let s1 := state_of (MyTestPass.setScene scenes1 (Some a) s) in
     let s2 := state_of (MyTestPass.setScene scenes2 (Some b) s1) in
     prog_id (mpProgram s2) = prog_id (mpProgram s) ∧
     prog_defines (mpProgram s2) =
       addDefines (getSceneDefines (scenes2 b))
         (addDefines (getSceneDefines (scenes1 a)) (prog_defines (mpProgram s))) ∧
     ∃ v1 v2,
       mpVars s1 = Some v1 ∧ mpVars s2 = Some v2 ∧ vars_id v2 ≠ vars_id v1 ∧
       vars_bindings v2 = ∅ ∧ vars_reflector v2 = getReflector (mpProgram s2)) ∧
  (∀ s,
     let s1 := GuidedRayViz.pipeline (state_of (GuidedRayViz.setScene scenes1 (Some a) s)) in
     let s2 := GuidedRayViz.pipeline
                 (state_of (GuidedRayViz.setScene scenes2 (Some b)
                              (state_of (GuidedRayViz.setScene scenes1 (Some a) s)))) in
     prog_id (mpProgram s2) = prog_id (mpProgram (GuidedRayViz.pipeline s)) ∧
     prog_defines (mpProgram s2) =
       addDefines (getSceneDefines (scenes2 b))
         (addDefines (getSceneDefines (scenes1 a))
            (prog_defines (mpProgram (GuidedRayViz.pipeline s)))) ∧
     ∃ v1 v2,
       mpVars s1 = Some v1 ∧ mpVars s2 = Some v2 ∧ vars_id v2 ≠ vars_id v1 ∧
       vars_bindings v2 = ∅ ∧ vars_reflector v2 = getReflector (mpProgram s2)).
Proof.
  assert (∀ p,
     let p1 := setScenePipeline scenes1 (Some a) p in
     let p2 := setScenePipeline scenes2 (Some b) p1 in
     prog_id (mpProgram p2) = prog_id (mpProgram p) ∧
     prog_defines (mpProgram p2) =
       addDefines (getSceneDefines (scenes2 b))
         (addDefines (getSceneDefines (scenes1 a)) (prog_defines (mpProgram p))) ∧
     ∃ v1 v2,
       mpVars p1 = Some v1 ∧ mpVars p2 = Some v2 ∧ vars_id v2 ≠ vars_id v1 ∧
       vars_bindings v2 = ∅ ∧ vars_reflector v2 = getReflector (mpProgram p2)) as Hraster.
  { intros p p1 p2.
    destruct (setScenePipeline_spec scenes1 (Some a) p) as (_ & Hid1 & Hdef1 & Hv1 & Hn1 & _).
    destruct (setScenePipeline_spec scenes2 (Some b) p1) as (_ & Hid2 & Hdef2 & Hv2 & Hn2 & _).
    fold p1 in Hid1, Hdef1, Hv1, Hn1. fold p2 in Hid2, Hdef2, Hv2, Hn2.
    split_and!; [congruence | by rewrite Hdef2, Hdef1 |].
    eexists _, _. split_and!; [exact Hv1 | exact Hv2 | | done | done].
    cbn. lia. }
  split_and!.
  - intros s s1 s2.
    pose proof (FG_setScene_wf scenes1 (Some a) s) as Hwf1. fold s1 in Hwf1.
    destruct (FG_setScene_spec scenes2 (Some b) s1)
      as (_ & _ & Hv & _ & _ & (p & t & Hp & Ht & Htid & Hpid & Hdef) & _).
    fold s2 in Hv, Hp, Ht.
    exists p, t. split_and!; try done.
    + intros Hin%(FocalGuiding.wf_ids _ Hwf1). lia.
    + intros Hin%(FocalGuiding.wf_ids _ Hwf1). lia.
  - intros s. apply Hraster.
  - intros s. cbv zeta. rewrite !GRV_setScene_spec. cbn. rewrite !pipeline_set_pipeline.
    apply Hraster.
Qed.

(** ** Where program vars are made *)

(** C8 (as stated, refuted): [MyTestPass::setScene] on a newly constructed
    pass makes the program vars itself, and the [execute] that follows
    makes none. *)
Lemma C8_counterexample :
  let s0 := MyTestPass.construct sampleDevice in
  let s1 := state_of (MyTestPass.setScene sampleScenes (Some 0%nat) s0) in
  let s2 := state_of (MyTestPass.execute (sampleFrame false 0) s1) in
  mpVars s0 = None ∧
  vars_id <$> mpVars s1 = Some 2%nat ∧
  vars_id <$> mpVars s2 = Some 2%nat.
Proof. cbv zeta. split_and!; by vm_compute. Qed.

(** C8 (amended): FocalGuiding makes its program vars in [execute] and not
    in [setScene]: [setScene] leaves none, and an [execute] with a scene
    whose geometry did not change makes them if the pass has none, and
    otherwise keeps the ones it has and creates nothing.  MyTestPass and
    GuidedRayViz make their program vars in [setScene], at every call, and
    [execute] keeps the ones it finds. *)
Theorem C8_where_vars_are_made {host : HostApi} scenes rd s scene :
  FocalGuiding.reachable s →
  FocalGuiding.mpScene s = Some scene →
  is_set (getUpdates (scenes scene)) GeometryChanged = false →
  (∀ scenes' pScene s0,
     FocalGuiding.pVars
       (FocalGuiding.mTracer (state_of (FocalGuiding.setScene scenes' pScene s0))) = None) ∧
  (let s' := state_of (FocalGuiding.execute scenes rd s) in
   ∃ v', FocalGuiding.pVars (FocalGuiding.mTracer s') = Some v' ∧
     match FocalGuiding.pVars (FocalGuiding.mTracer s) with
     | None =>
         vars_id (FocalGuiding.rt_vars v') = next_id (FocalGuiding.mpDevice s)
     | Some v =>
         vars_id (FocalGuiding.rt_vars v') = vars_id (FocalGuiding.rt_vars v) ∧
         next_id (FocalGuiding.mpDevice s') = next_id (FocalGuiding.mpDevice s)
     end) ∧
  (∀ scenes' pScene s0,
     vars_id <$> mpVars (state_of (MyTestPass.setScene scenes' pScene s0))
       = Some (next_id (mpDevice s0))) ∧
  (∀ scenes' pScene s0,
     vars_id <$> mpVars (GuidedRayViz.pipeline
                           (state_of (GuidedRayViz.setScene scenes' pScene s0)))
       = Some (next_id (mpDevice (GuidedRayViz.pipeline s0)))) ∧
  (∀ rd' s0,
     vars_id <$> mpVars (state_of (MyTestPass.execute rd' s0)) = vars_id <$> mpVars s0) ∧
  (∀ rd' s0,
     vars_id <$> mpVars (GuidedRayViz.pipeline (state_of (GuidedRayViz.execute rd' s0)))
       = vars_id <$> mpVars (GuidedRayViz.pipeline s0)).
Proof.
  intros Hreach Hsc Hg. split_and!.
  - intros scenes' pScene s0.
    by destruct (FG_setScene_spec scenes' pScene s0) as (_ & _ & Hv & _).
  - destruct (FocalGuiding.wf_pipeline _ (FG_reachable_wf _ Hreach)) as (p & t & Hp & Ht);
      [congruence|].
    destruct (FG_execute_bound scenes rd s scene p t Hsc Hp Ht Hg)
      as ((p' & v' & _ & _ & _ & Hv' & Hvid & _) & _ & Hdev & _).
    exists v'. split; [done|]. unfold FocalGuiding.vars_for in Hvid.
    by destruct (FocalGuiding.pVars (FocalGuiding.mTracer s)).
  - intros scenes' pScene s0.
    change (state_of (MyTestPass.setScene scenes' pScene s0))
      with (setScenePipeline scenes' pScene s0).
    by destruct (setScenePipeline_spec scenes' pScene s0) as (_ & _ & _ & -> & _).
  - intros scenes' pScene s0.
    rewrite GRV_setScene_spec. cbn. rewrite pipeline_set_pipeline.
    by destruct (setScenePipeline_spec scenes' pScene (GuidedRayViz.pipeline s0))
      as (_ & _ & _ & -> & _).
  - intros rd' s0. by destruct (drawPipeline_spec rd' s0) as (_ & _ & Hid & _).
  - intros rd' s0. destruct (GRV_execute_pipeline rd' s0) as [-> | ->]; [done|].
    by destruct (drawPipeline_spec rd' (GuidedRayViz.pipeline s0)) as (_ & _ & Hid & _).
Qed.

(** C8 on the sample pass bound to scene 0: the first frame makes the
    program vars, the third object made through the device. *)
Lemma C8_where_vars_are_made_witness :
  FocalGuiding.pVars (FocalGuiding.mTracer sampleBound) = None ∧
  ∃ v', FocalGuiding.pVars
          (FocalGuiding.mTracer
             (state_of (FocalGuiding.execute (host := sampleHost) sampleScenes
                          (sampleFrame false 0) sampleBound))) = Some v' ∧
        vars_id (FocalGuiding.rt_vars v') = 2%nat.
Proof.
  split; [reflexivity|].
  exact (proj1 (proj2 (C8_where_vars_are_made (host := sampleHost) sampleScenes
                         (sampleFrame false 0) sampleBound 0%nat
                         sampleBound_reachable eq_refl eq_refl))).
Defined.

(** ** The ray visualization *)

Lemma sampleViz_reachable : GuidedRayViz.reachable (host := sampleHost) sampleViz.
Proof. apply GuidedRayViz.reach_setScene, GuidedRayViz.reach_construct. Qed.

(** C3 (as stated, refuted): with a scene and the recompute flag not set,
    [GuidedRayViz::execute] does not draw nothing: it rasterizes the
    scene. *)
Lemma C3_counterexample :
  let rd := sampleFrame false 3 in
  let o := GuidedRayViz.execute (host := sampleHost) rd sampleViz in
  mpScene (GuidedRayViz.pipeline sampleViz) = Some 0%nat ∧
  GuidedRayViz.decodes rd = false ∧
  draws (trace_of o) ≠ [].
Proof. cbv zeta. split_and!; by vm_compute. Qed.

(** C3 (amended): [GuidedRayViz::execute] on a pass with a scene never
    throws and reads the [count] line records from the shared buffer if and
    only if the recompute flag is set and the buffer handle is present.
    Reading them only prints them: no scene is built from them, and when
    [execute] returns, its calls are the read (if any), the prints, the
    clear of the output and one draw call, which rasterizes the scene of the
    pass.  [execute] returns when it does not read, when [count] is 0, and
    when the buffer gives [count] records; without a read and with
    [count = 0] nothing is printed. *)
Theorem C3_decode_and_draw {host : HostApi} rd s scene :
  GuidedRayViz.reachable s →
  mpScene (GuidedRayViz.pipeline s) = Some scene →
  let o := GuidedRayViz.execute rd s in
  let count := gGuidedRaysSize (getDictionary rd) in
  ∃ vars prints,
    mpVars (GuidedRayViz.pipeline s) = Some vars ∧
    Forall (λ e, is_printf e = true) prints ∧
    throws o = false ∧
    GuidedRayViz.mpRayScene (state_of o) = None ∧
    keep is_decode (trace_of o) =
      match gGuidedRays (getDictionary rd) with
      | Some buffer => if GuidedRayViz.decodes rd then [GetElements buffer 0 count] else []
      | None => []
      end ∧
    (returns o = true →
     trace_of o =
       keep is_decode (trace_of o) ++ prints ++
       [clear_target rd (GuidedRayViz.pipeline s);
        rasterize_scene rd (GuidedRayViz.pipeline s) scene vars]) ∧
    (GuidedRayViz.decodes rd = false → returns o = true ∧ prints = []) ∧
    (count = 0 → returns o = true ∧ prints = []) ∧
    (∀ buffer, gGuidedRays (getDictionary rd) = Some buffer →
       (N.to_nat count ≤ length (getElements buffer 0 count))%nat →
       returns o = true).
Proof.
  intros Hreach Hsc o count. subst o count.
  destruct (mpVars (GuidedRayViz.pipeline s)) as [v|] eqn:Hv;
    [|destruct (pwf_vars _ (GRV_reachable_wf _ Hreach)); [congruence|done]].
  destruct (GRV_execute_scene rd s scene v Hsc Hv) as (Ht & Hrs & _ & _ & Hdec).
  rewrite (GRV_reachable_no_ray_scene _ Hreach) in Hrs.
  destruct (GuidedRayViz.decodes rd) eqn:Hd.
  - destruct Hdec as (buffer & prints & Hb & Hp & Hz & Hr & Htr).
    assert (keep is_decode prints = []) as Hkd.
    { clear -Hp. unfold keep. induction Hp as [|e l He _ IH]; [done|].
      by destruct e. }
    assert (keep is_decode
              (trace_of (GuidedRayViz.execute rd s)) = [GetElements buffer 0
                 (gGuidedRaysSize (getDictionary rd))]) as Hk.
    { rewrite Htr. unfold keep. cbn. rewrite omap_app. fold (keep is_decode prints).
      rewrite Hkd. by destruct (returns _). }
    exists v, prints. rewrite Hb, Hk. split_and!; try done.
    + intros Hret. by rewrite Htr, Hret.
    + intros Hz0. split; [|by apply Hz].
      apply Hr. rewrite Hz0. cbn. lia.
    + intros b [= <-] Hle. by apply Hr.
  - exists v, []. rewrite Hdec. cbn.
    split_and!; try done.
    destruct (gGuidedRays (getDictionary rd)); done.
Qed.

(** C3 on the sample pass bound to scene 0, for a frame that asks for two
    rays: one read, eight prints, the clear and the draw. *)
Lemma C3_decode_and_draw_witness :
  ∃ vars prints,
    trace_of (GuidedRayViz.execute (host := sampleHost) (sampleFrame true 2) sampleViz) =
      [GetElements 50%nat 0 2] ++ prints ++
      [clear_target (sampleFrame true 2) (GuidedRayViz.pipeline sampleViz);
       rasterize_scene (sampleFrame true 2) (GuidedRayViz.pipeline sampleViz) 0%nat vars] ∧
    length prints = 8%nat.
Proof.
  destruct (C3_decode_and_draw (host := sampleHost) (sampleFrame true 2) sampleViz 0%nat
              sampleViz_reachable eq_refl)
    as (vars & prints & _ & _ & _ & _ & Hk & Htr & _).
  exists vars, prints.
  specialize (Htr eq_refl). cbv zeta in Hk. rewrite Hk in Htr.
  change (match gGuidedRays (getDictionary (sampleFrame true 2)) with
          | Some buffer => _
          | None => []
          end) with [GetElements 50%nat 0 2] in Htr.
  split; [exact Htr|].
  assert (length (trace_of (GuidedRayViz.execute (host := sampleHost)
                              (sampleFrame true 2) sampleViz)) = 11%nat) as Hlen
    by (vm_compute; reflexivity).
  rewrite Htr, !length_app in Hlen. cbn [length] in Hlen. lia.
Defined.

(** * More about FocalGuiding frames *)

Section FocalGuidingFrames.
Context {host : HostApi}.
Import FocalGuiding.

Ltac run_in H :=
  unfold execute, setScene, prepareVars, bind, set_var, on_pProgram, FALCOR_ASSERT,
    when, for_each, mbind, mret, M_mbind, M_mret, M_bind, M_ret, modify, get, create,
    emit, throw, fault in H; cbn in H.

(** A frame on a scene whose geometry did not change, in full: the calls it
    makes and the members it leaves. *)
Lemma FG_execute_frame scenes rd s scene p t :
  mpScene s = Some scene →
  pProgram (mTracer s) = Some p →
  pBindingTable (mTracer s) = Some t →
  is_set (getUpdates (scenes scene)) GeometryChanged = false →
  let o := execute scenes rd s in
  let s' := state_of o in
  trace_of o =
    frame_prologue scenes rd s scene ++
    (if assertsEnabled && negb (dims_ok rd) then [] else [frame_dispatch rd s scene p]) ∧
  mNodes s' = frame_nodes s ∧
  mNodesSize s' = mNodesSize s ∧
  ∃ p' v',
    pProgram (mTracer s') = Some p' ∧
    pVars (mTracer s') = Some v' ∧
    prog_desc p' = prog_desc p ∧
    prog_defines p' = frame_defines rd (prog_defines p) ∧
    prog_typeConformances p' =
      (if is_null (pVars (mTracer s)) then getTypeConformances (scenes scene)
       else prog_typeConformances p) ∧
    vars_bindings (rt_vars v') =
      frame_bindings scenes rd scene (mNodesSize s) (buf_id <$> frame_nodes s)
        (match pVars (mTracer s) with
         | Some v => vars_bindings (rt_vars v)
         | None => ∅
         end) ∧
    (pVars (mTracer s) = None →
     refl_defines (vars_reflector (rt_vars v')) = frame_defines rd (prog_defines p)).
Proof.
  intros H1 H2 H3 Hg o s'. subst s'.
  destruct s as [[dev] sc [pp pb pv] nodes sz].
  unfold frame_prologue, frame_dispatch, frame_nodes, new_nodes, frame_defines,
    frame_bindings, vars_for, dims_ok.
  cbn in H1, H2, H3. subst sc pp pb.
  assert (Ho : o = execute scenes rd
                 {| mpDevice := {| next_id := dev |}; mpScene := Some scene;
                    mTracer := {| pProgram := Some p; pBindingTable := Some t; pVars := pv |};
                    mNodes := nodes; mNodesSize := sz |}) by reflexivity.
  clearbody o.
  cbn [mpScene mTracer pProgram pBindingTable pVars mpDevice mNodes mNodesSize next_id].
  destruct p as [pid pdesc pdef ptc].
  destruct (useEmissiveLights (getRenderSettings (scenes scene))) eqn:E1,
    (PrimFloat.ltb 0 (getApertureRadius (getCamera (scenes scene)))) eqn:E2,
    (is_null (getTexture rd kInputViewDir)) eqn:E3,
    pv as [[[vid vr vb] vt]|], assertsEnabled eqn:E4,
    (0 <? fst (getDefaultTextureDims rd)) eqn:E5, (0 <? snd (getDefaultTextureDims rd)) eqn:E6;
    run_in Ho; rewrite Hg, ?E1, ?E2, ?E3, ?E4, ?E5, ?E6 in Ho; cbn in Ho;
    rewrite ?E4, ?E5, ?E6 in Ho; cbn in Ho; subst o; cbn.
  all: split_and!; [reflexivity..|].
  all: eexists _, _; split_and!; first [reflexivity | by intros].
Qed.

End FocalGuidingFrames.

Section FocalGuidingFrames2.
Context {host : HostApi}.
Import FocalGuiding.

(** Over the life of a pass the density buffer is an object made before
    the device counter reached its value, and a pass that has program vars
    has a density buffer. *)
Lemma FG_reachable_nodes s :
  reachable s →
  (pVars (mTracer s) ≠ None → mNodes s ≠ None) ∧
  (∀ b, mNodes s = Some b → (buf_id b < next_id (mpDevice s))%nat).
Proof.
  induction 1 as [pDevice nodesSize | s scenes pScene Hreach IH | s scenes rd Hreach IH Hf].
  - by split.
  - destruct IH as [_ IH].
    destruct (FG_setScene_spec scenes pScene s) as (_ & _ & Hv & Hn & _ & Hp).
    split; [by rewrite Hv|]. rewrite Hn. intros b Hb. specialize (IH b Hb).
    destruct pScene; [destruct Hp as (_ & -> & _); lia | by destruct Hp as (_ & _ & -> & _)].
  - destruct (mpScene s) as [scene|] eqn:Hsc;
      [|by rewrite (FG_execute_no_scene _ _ _ Hsc)].
    destruct (is_set (getUpdates (scenes scene)) GeometryChanged) eqn:Hg;
      [by rewrite (FG_execute_geometry_changed _ _ _ _ Hsc Hg)|].
    destruct (wf_pipeline _ (FG_reachable_wf _ Hreach)) as (p & t & Hp & Ht); [congruence|].
    destruct (FG_execute_frame scenes rd s scene p t Hsc Hp Ht Hg) as (_ & Hn & _).
    destruct (FG_execute_bound scenes rd s scene p t Hsc Hp Ht Hg) as (_ & _ & Hdev & _).
    rewrite Hn, Hdev. unfold frame_nodes. destruct IH as [IH1 IH2].
    destruct (pVars (mTracer s)); cbn.
    + split; [by intros _; apply IH1|done].
    + split; [done|]. intros b [= <-]. cbn. lia.
Qed.

(** X1: after a frame on a scene whose geometry did not change, the program
    vars bind every input and output channel to the texture the frame has
    for it (a null one if unconnected), the constants to the node count and
    the bounds of the scene as they are now, and [gNodes] to the density
    buffer of the pass, whatever was bound before. *)
Theorem X1_frame_binds_resources scenes rd s scene :
  reachable s →
  mpScene s = Some scene →
  is_set (getUpdates (scenes scene)) GeometryChanged = false →
  let s' := state_of (execute scenes rd s) in
  ∃ v' nodes,
    pVars (mTracer s') = Some v' ∧ mNodes s' = Some nodes ∧
    (∀ c, c ∈ kInputChannels ++ kOutputChannels →
       vars_bindings (rt_vars v') !! [texname c] = Some (VTexture (getTexture rd (name c)))) ∧
    vars_bindings (rt_vars v') !! ["CB"; "gNodesSize"] = Some (VUInt (mNodesSize s)) ∧
    vars_bindings (rt_vars v') !! ["CB"; "gSceneBoundsMin"]
      = Some (VFloat3 (minPoint (getSceneBounds (scenes scene)))) ∧
    vars_bindings (rt_vars v') !! ["CB"; "gSceneBoundsMax"]
      = Some (VFloat3 (maxPoint (getSceneBounds (scenes scene)))) ∧
    vars_bindings (rt_vars v') !! ["gNodes"] = Some (VBuffer (Some (buf_id nodes))).
Proof.
  intros Hreach Hsc Hg s'. subst s'.
  destruct (wf_pipeline _ (FG_reachable_wf _ Hreach)) as (p & t & Hp & Ht); [congruence|].
  destruct (FG_execute_frame scenes rd s scene p t Hsc Hp Ht Hg)
    as (_ & Hn & _ & p' & v' & _ & Hv' & _ & _ & _ & Hb & _).
  assert (∃ nodes, frame_nodes s = Some nodes) as [nodes Hnodes].
  { unfold frame_nodes. destruct (pVars (mTracer s)) eqn:Hv; cbn; [|eauto].
    destruct (mNodes s) eqn:Hm; [eauto|].
    exfalso. apply (proj1 (FG_reachable_nodes s Hreach)); [congruence|done]. }
  exists v', nodes. rewrite Hb, Hn, Hnodes. unfold frame_bindings. cbn.
  split_and!; [done | done | | by simplify_map_eq..].
  intros c Hc. unfold kInputChannels, kOutputChannels in Hc. cbn in Hc.
  rewrite !elem_of_cons in Hc.
  destruct Hc as [-> | [-> | [-> | Hc]]]; [by simplify_map_eq.. |].
  by apply elem_of_nil in Hc.
Qed.

(** X2: a frame on a scene whose geometry did not change makes these calls
    and no other, in this order: the request for the light collection if
    the scene uses emissive lights, the depth-of-field warning if one is
    due, the publication of the density buffer under "gNodes" in the
    dictionary, and the dispatch.  It clears nothing. *)
Theorem X2_frame_calls scenes rd s scene :
  reachable s →
  mpScene s = Some scene →
  is_set (getUpdates (scenes scene)) GeometryChanged = false →
  assertsEnabled = false ∨ dims_ok rd = true →
  let o := execute scenes rd s in
  ∃ p nodes,
    pProgram (mTracer s) = Some p ∧ mNodes (state_of o) = Some nodes ∧
    trace_of o =
      (if useEmissiveLights (getRenderSettings (scenes scene))
       then [GetLightCollection scene] else []) ++
      (if PrimFloat.ltb 0 (getApertureRadius (getCamera (scenes scene)))
          && is_null (getTexture rd kInputViewDir)
       then [dof_warning] else []) ++
      [DictionarySet "gNodes" (Some (buf_id nodes));
       Raytrace scene (prog_id p) (vars_for s)
         (fst (getDefaultTextureDims rd), snd (getDefaultTextureDims rd), 1)] ∧
    cleared (trace_of o) = [].
Proof.
  intros Hreach Hsc Hg Hdims o. subst o.
  destruct (wf_pipeline _ (FG_reachable_wf _ Hreach)) as (p & t & Hp & Ht); [congruence|].
  destruct (FG_execute_frame scenes rd s scene p t Hsc Hp Ht Hg) as (Htr & Hn & _).
  assert (assertsEnabled && negb (dims_ok rd) = false) as Hok.
  { destruct Hdims as [-> | ->]; [done|apply andb_false_r]. }
  rewrite Hok in Htr.
  assert (∃ nodes, frame_nodes s = Some nodes) as [nodes Hnodes].
  { unfold frame_nodes. destruct (pVars (mTracer s)) eqn:Hv; cbn; [|eauto].
    destruct (mNodes s) eqn:Hm; [eauto|].
    exfalso. apply (proj1 (FG_reachable_nodes s Hreach)); [congruence|done]. }
  exists p, nodes. rewrite Htr, Hn. unfold frame_prologue, frame_dispatch.
  rewrite Hnodes. split_and!; [done | done | by rewrite <- !app_assoc |].
  by destruct (useEmissiveLights (getRenderSettings (scenes scene))),
    (PrimFloat.ltb 0 (getApertureRadius (getCamera (scenes scene)))),
    (is_null (getTexture rd kInputViewDir)).
Qed.

(** X3: the density buffer outlives the frames and the scene changes that
    do not remake it.  [setScene] leaves the buffer and the node count as
    they are; a frame of a pass that has program vars keeps the buffer; a
    frame of a pass that has none (the first one after a [setScene]) puts a
    newly made buffer in its place, of the node count of the pass, bound as
    shader resource and for unordered access, in device-local memory, and
    filled from the initializer. *)
Theorem X3_density_buffer_life scenes rd s scene :
  reachable s →
  mpScene s = Some scene →
  is_set (getUpdates (scenes scene)) GeometryChanged = false →
  (∀ scenes' pScene,
     mNodes (state_of (setScene scenes' pScene s)) = mNodes s ∧
     mNodesSize (state_of (setScene scenes' pScene s)) = mNodesSize s) ∧
  let s' := state_of (execute scenes rd s) in
  mNodesSize s' = mNodesSize s ∧
  match pVars (mTracer s) with
  | Some _ => mNodes s' = mNodes s ∧ mNodes s ≠ None
  | None =>
      ∃ nodes,
        mNodes s' = Some nodes ∧
        (∀ old, mNodes s = Some old → buf_id old ≠ buf_id nodes) ∧
        buf_elementCount nodes = mNodesSize s ∧
        buf_bindFlags nodes = [ShaderResource; UnorderedAccess] ∧
        buf_memoryType nodes = DeviceLocal ∧
        buf_initData nodes = initDensities
  end.
Proof.
  intros Hreach Hsc Hg. split.
  - intros scenes' pScene.
    by destruct (FG_setScene_spec scenes' pScene s) as (_ & _ & _ & Hn & Hsz & _).
  - destruct (wf_pipeline _ (FG_reachable_wf _ Hreach)) as (p & t & Hp & Ht); [congruence|].
    destruct (FG_execute_frame scenes rd s scene p t Hsc Hp Ht Hg) as (_ & Hn & Hsz & _).
    destruct (FG_reachable_nodes s Hreach) as [Hsome Hids].
    cbv zeta. rewrite Hn. unfold frame_nodes. split; [done|].
    destruct (pVars (mTracer s)) eqn:Hv; cbn.
    + split; [done|]. by apply Hsome.
    + exists (new_nodes s). split_and!; try done.
      intros old Hold. specialize (Hids old Hold). cbn. lia.
Qed.


End FocalGuidingFrames2.

Section FocalGuidingPipeline.
Context {host : HostApi}.
Import FocalGuiding.

(** X5: [setScene] with a scene leaves a binding table and a program whose
    description agree: ray generation, the miss entries 0 and 1 and, if the
    scene has triangle meshes, the hit groups of the ray types 0 and 1 over
    the triangle-mesh geometry of the scene, each naming an entry point
    group of its kind; without triangle meshes the table has no hit group.
    The table is sized for 2 miss entries, 2 ray types and the geometry
    count of the scene; the description has the shader modules of the
    scene, the shader library of the pass, a payload of 72 bytes, the
    attribute size of the scene and recursion depth 2. *)
Theorem X5_setScene_binding_table scenes scene s :
  let s' := state_of (setScene scenes (Some scene) s) in
  ∃ p t,
    pProgram (mTracer s') = Some p ∧ pBindingTable (mTracer s') = Some t ∧
    sbt_agrees (prog_desc p) t ∧
    sbt_missCount t = 2 ∧ sbt_rayTypeCount t = 2 ∧
    sbt_geometryCount t = getGeometryCount (scenes scene) ∧
    fst <$> sbt_miss t = [0; 1] ∧
    fst <$> sbt_hitGroups t =
      (if hasGeometryType (scenes scene) TriangleMesh
       then [(0, getGeometryIDs (scenes scene) TriangleMesh);
             (1, getGeometryIDs (scenes scene) TriangleMesh)]
       else []) ∧
    shaderModules (prog_desc p) = getShaderModules (scenes scene) ∧
    shaderLibraries (prog_desc p) = [kShaderFile] ∧
    maxPayloadSize (prog_desc p) = 72 ∧
    maxAttributeSize (prog_desc p) = getRaytracingMaxAttributeSize (scenes scene) ∧
    maxTraceRecursionDepth (prog_desc p) = 2.
Proof.
  destruct s as [[dev] sc [pp pb pv] nodes sz].
  unfold setScene, when, mbind, mret, M_mbind, M_mret, M_bind, M_ret, modify, get, create, emit.
  cbn.
  destruct (hasGeometryType (scenes scene) Custom), (hasGeometryType (scenes scene) TriangleMesh);
    cbn; eexists _, _; (split_and!; [reflexivity | reflexivity | | reflexivity..]);
    (split_and!; cbn;
     [ by eexists _, _
     | intros m i Hm; rewrite !elem_of_cons, elem_of_nil in Hm;
       destruct Hm as [[= -> ->] | [[= -> ->] | []]]; (split; [done | by eexists])
     | intros r ids i Hr; rewrite ?elem_of_cons, elem_of_nil in Hr;
       repeat (destruct Hr as [[= -> -> ->] | Hr]; [split; [done | by eexists _, _]|]);
       done ]).
Qed.

(** What a frame on a scene whose geometry did not change leaves for the
    next frame. *)
Lemma FG_execute_next scenes rd s scene p :
  wf s →
  mpScene s = Some scene →
  pProgram (mTracer s) = Some p →
  is_set (getUpdates (scenes scene)) GeometryChanged = false →
  assertsEnabled = false ∨ dims_ok rd = true →
  ∃ s1 p1,
    execute scenes rd s =
      Returned tt s1 (frame_prologue scenes rd s scene ++ [frame_dispatch rd s scene p]) ∧
    wf s1 ∧ mpScene s1 = Some scene ∧ pProgram (mTracer s1) = Some p1 ∧
    prog_id p1 = prog_id p ∧ vars_for s1 = vars_for s ∧
    is_null (pVars (mTracer s1)) = false ∧
    next_id (mpDevice s1) =
      (if is_null (pVars (mTracer s)) then S (S (next_id (mpDevice s)))
       else next_id (mpDevice s)).
Proof.
  intros Hwf Hsc Hp Hg Hdims.
  destruct (wf_pipeline _ Hwf) as (p0 & t & Hp0 & Ht); [congruence|].
  rewrite Hp in Hp0. injection Hp0 as <-.
  destruct (FG_execute_frame scenes rd s scene p t Hsc Hp Ht Hg) as (Htr & _).
  destruct (FG_execute_bound scenes rd s scene p t Hsc Hp Ht Hg)
    as ((p' & v' & Hp' & Hid & _ & Hv' & Hvid & _) & Hsc' & Hdev & _ & Hend).
  assert (assertsEnabled && negb (dims_ok rd) = false) as Hok.
  { destruct Hdims as [-> | ->]; [done|apply andb_false_r]. }
  rewrite Hok in Htr, Hend. destruct Hend as [Ho _].
  exists (state_of (execute scenes rd s)), p'.
  split_and!; try done.
  - by rewrite <- Htr.
  - by apply FG_execute_wf.
  - unfold vars_for at 1. by rewrite Hv'.
  - by rewrite Hv'.
Qed.

(** Consecutive frames on one scene. *)
Lemma FG_frames scenes rds : ∀ s scene p,
  wf s →
  mpScene s = Some scene →
  pProgram (mTracer s) = Some p →
  is_set (getUpdates (scenes scene)) GeometryChanged = false →
  assertsEnabled = false ∨ Forall (λ rd, dims_ok rd = true) rds →
  let o := for_each rds (execute scenes) s in
  returns o = true ∧
  draws (trace_of o) = (λ rd, frame_dispatch rd s scene p) <$> rds ∧
  next_id (mpDevice (state_of o)) =
    match rds with
    | [] => next_id (mpDevice s)
    | _ :: _ =>
        if is_null (pVars (mTracer s)) then S (S (next_id (mpDevice s)))
        else next_id (mpDevice s)
    end.
Proof.
  induction rds as [|rd rds IH]; intros s scene p Hwf Hsc Hp Hg Hdims; [done|].
  assert (assertsEnabled = false ∨ dims_ok rd = true) as Hrd.
  { destruct Hdims as [? | Hall]; [by left | right].
    by apply Forall_cons in Hall as [? _]. }
  assert (assertsEnabled = false ∨ Forall (λ rd, dims_ok rd = true) rds) as Hrds.
  { destruct Hdims as [? | Hall]; [by left | right].
    by apply Forall_cons in Hall as [_ ?]. }
  destruct (FG_execute_next scenes rd s scene p Hwf Hsc Hp Hg Hrd)
    as (s1 & p1 & Ho & Hwf1 & Hsc1 & Hp1 & Hid & Hvars & Hnull & Hdev).
  destruct (IH s1 scene p1 Hwf1 Hsc1 Hp1 Hg Hrds) as (Hret & Hdraws & Hdev').
  cbn [for_each]. unfold mbind, M_mbind, M_bind. rewrite Ho.
  destruct (for_each rds (execute scenes) s1) as [[] s2 tr2 | w s2 tr2 | x s2 tr2];
    cbn in Hret, Hdraws, Hdev' |- *; [|done..].
  split; [done|]. split.
  - unfold draws, keep in *. rewrite !omap_app, Hdraws. cbn.
    assert (∀ rd', frame_dispatch rd' s1 scene p1 = frame_dispatch rd' s scene p) as Heq.
    { intros rd'. unfold frame_dispatch. by rewrite Hid, Hvars. }
    assert (omap (λ e, if is_draw e then Some e else None)
              (frame_prologue scenes rd s scene) = []) as ->.
    { unfold frame_prologue.
      by destruct (useEmissiveLights _),
        (PrimFloat.ltb 0 (getApertureRadius (getCamera (scenes scene)))),
        (is_null (getTexture rd kInputViewDir)). }
    cbn. f_equal. apply list_fmap_ext. by intros _ rd' _.
  - rewrite Hdev'. destruct rds; [done|]. by rewrite Hnull.
Qed.

(** X6: consecutive frames on one scene whose geometry does not change all
    return, each with one dispatch, and all dispatches are given the same
    program and the same program vars; only the first frame can create
    objects (the program vars and the density buffer, when the pass has
    none). *)
Theorem X6_steady_frames scenes rds s scene :
  reachable s →
  mpScene s = Some scene →
  is_set (getUpdates (scenes scene)) GeometryChanged = false →
  assertsEnabled = false ∨ Forall (λ rd, dims_ok rd = true) rds →
  let o := for_each rds (execute scenes) s in
  ∃ p,
    pProgram (mTracer s) = Some p ∧
    returns o = true ∧
    draws (trace_of o) =
      (λ rd, Raytrace scene (prog_id p) (vars_for s)
               (fst (getDefaultTextureDims rd), snd (getDefaultTextureDims rd), 1)) <$> rds ∧
    (next_id (mpDevice (state_of o)) ≤ 2 + next_id (mpDevice s))%nat ∧
    (pVars (mTracer s) ≠ None →
     next_id (mpDevice (state_of o)) = next_id (mpDevice s)).
Proof.
  intros Hreach Hsc Hg Hdims o. subst o.
  pose proof (FG_reachable_wf _ Hreach) as Hwf.
  destruct (wf_pipeline _ Hwf) as (p & t & Hp & Ht); [congruence|].
  destruct (FG_frames scenes rds s scene p Hwf Hsc Hp Hg Hdims) as (Hret & Hdraws & Hdev).
  exists p. split_and!; try done.
  - rewrite Hdev. destruct rds, (pVars (mTracer s)); cbn; lia.
  - intros Hv. rewrite Hdev. destruct rds, (pVars (mTracer s)); cbn; done.
Qed.

End FocalGuidingPipeline.

(** * More about the raster passes *)

Section RasterLife.

(** What the clear-and-draw tail does to the members it assigns. *)
Lemma drawPipeline_members rd p :
  let p' := state_of (drawPipeline rd p) in
  mpRasterState p' = mpRasterState p ∧
  mpGraphicsState p' = GraphicsState_setFbo (targetFbo rd p) (mpGraphicsState p) ∧
  mpVars p' =
    match mpScene p with
    | Some _ => ProgramVars_set kColorVar kGreen <$> mpVars p
    | None => mpVars p
    end.
Proof.
  destruct p as [[id] [scene|] prog gs rs [[vid vr vb]|]];
    unfold drawPipeline, createTargetFbo, mbind, mret, M_mbind, M_mret, M_bind, M_ret,
      modify, get, emit, fault; cbn; by split_and!.
Qed.

Lemma GraphicsState_setFbo_spec f g :
  gs_id (GraphicsState_setFbo f g) = gs_id g ∧
  gs_program (GraphicsState_setFbo f g) = gs_program g ∧
  gs_rasterizerState (GraphicsState_setFbo f g) = gs_rasterizerState g ∧
  gs_fbo (GraphicsState_setFbo f g) = Some f.
Proof. by destruct g. Qed.

Lemma constructPipeline_fixed pDevice shaderFile :
  pipeline_fixed shaderFile (constructPipeline pDevice shaderFile).
Proof. destruct pDevice as [id]. by split. Qed.

Lemma setScenePipeline_fixed shaderFile scenes pScene p :
  pipeline_fixed shaderFile p → pipeline_fixed shaderFile (setScenePipeline scenes pScene p).
Proof.
  intros [Hd Hp Hg Hr].
  destruct p as [[id] sc [pid pdesc pdef ptc] gs rs v]. cbn in *.
  destruct pScene; by split.
Qed.

Lemma drawPipeline_fixed shaderFile rd p :
  pipeline_fixed shaderFile p → pipeline_fixed shaderFile (state_of (drawPipeline rd p)).
Proof.
  intros [Hd Hp Hg Hr].
  destruct (drawPipeline_spec rd p) as (_ & Hprog & _).
  destruct (drawPipeline_members rd p) as (Hrs & Hgs & _).
  destruct (GraphicsState_setFbo_spec (targetFbo rd p) (mpGraphicsState p))
    as (_ & Hgp & Hgr & _).
  split; rewrite ?Hprog, ?Hrs, ?Hgs, ?Hgp, ?Hgr; done.
Qed.

Lemma ProgramVars_set_bindings path x pv :
  vars_bindings (ProgramVars_set path x pv) = <[path := x]> (vars_bindings pv).
Proof. by destruct pv. Qed.

(** The one shader variable: a pipeline binds nothing, or the colour. *)
Lemma setScenePipeline_colour scenes pScene p v :
  mpVars (setScenePipeline scenes pScene p) = Some v → vars_bindings v = ∅.
Proof.
  destruct (setScenePipeline_spec scenes pScene p) as (_ & _ & _ & -> & _).
  by intros [= <-].
Qed.

Lemma drawPipeline_colour rd p :
  (∀ v, mpVars p = Some v →
        vars_bindings v = ∅ ∨ vars_bindings v = {[ kColorVar := kGreen ]}) →
  ∀ v, mpVars (state_of (drawPipeline rd p)) = Some v →
       (vars_bindings v = ∅ ∨ vars_bindings v = {[ kColorVar := kGreen ]}) ∧
       (mpScene p ≠ None → vars_bindings v = {[ kColorVar := kGreen ]}).
Proof.
  intros Hp v. destruct (drawPipeline_members rd p) as (_ & _ & ->).
  destruct (mpScene p) as [scene|].
  - destruct (mpVars p) as [v0|]; [|done]. intros [= <-].
    rewrite ProgramVars_set_bindings.
    destruct (Hp _ eq_refl) as [Hb | Hb]; rewrite Hb.
    + rewrite insert_empty. auto.
    + rewrite insert_singleton_eq. auto.
  - intros Hv. split; [by apply Hp|done].
Qed.

(** Later states keep the program object and never lose a define. *)
Lemma pipeline_later_program p p' :
  pipeline_later p p' →
  prog_id (mpProgram p') = prog_id (mpProgram p) ∧
  prog_desc (mpProgram p') = prog_desc (mpProgram p) ∧
  ∀ k, is_Some (prog_defines (mpProgram p) !! k) →
       is_Some (prog_defines (mpProgram p') !! k).
Proof.
  induction 1 as [| p' scenes pScene _ (IHid & IHdesc & IHdef) | p' rd _ (IHid & IHdesc & IHdef)].
  - done.
  - destruct (setScenePipeline_spec scenes pScene p') as (_ & Hid & Hdef & _).
    split_and!; [congruence | | ].
    + rewrite <- IHdesc. destruct p' as [[id] sc [pid pdesc pdef ptc] gs rs v].
      by destruct pScene.
    + intros k Hk. rewrite Hdef. destruct pScene; [|by apply IHdef].
      unfold addDefines. rewrite lookup_union_is_Some. right. by apply IHdef.
  - destruct (drawPipeline_spec rd p') as (_ & -> & _). done.
Qed.

End RasterLife.

Section RasterPasses.
Context {host : HostApi}.

Lemma MTP_reachable_fixed s :
  MyTestPass.reachable s →
  pipeline_fixed "RenderPasses/MyTestPass/MyTestShader.slang" s.
Proof.
  induction 1 as [pDevice | s scenes pScene _ IH | s rd _ IH _].
  - apply constructPipeline_fixed.
  - by apply setScenePipeline_fixed.
  - by apply drawPipeline_fixed.
Qed.

Lemma GRV_reachable_fixed s :
  GuidedRayViz.reachable s →
  pipeline_fixed GuidedRayViz.kShaderFile (GuidedRayViz.pipeline s).
Proof.
  induction 1 as [pDevice | s scenes pScene _ IH | s rd _ IH _].
  - apply constructPipeline_fixed.
  - rewrite GRV_setScene_spec. cbn. rewrite pipeline_set_pipeline.
    by apply setScenePipeline_fixed.
  - destruct (GRV_execute_pipeline rd s) as [-> | ->]; [done|].
    by apply drawPipeline_fixed.
Qed.

(** X7: over the whole life of a raster pass the program keeps the
    description the constructor gave it (its shader file with the entry
    points "vsMain" and "psMain"), the graphics state keeps that program,
    and both the graphics state and the pass keep the rasterizer state of
    the constructor: wireframe, no culling. *)
Theorem X7_raster_pipeline_fixed s1 s2 :
  MyTestPass.reachable s1 →
  GuidedRayViz.reachable s2 →
  pipeline_fixed "RenderPasses/MyTestPass/MyTestShader.slang" s1 ∧
  pipeline_fixed "RenderPasses/FocalGuiding/GuidedRayViz.slang" (GuidedRayViz.pipeline s2).
Proof. intros H1 H2. split; [by apply MTP_reachable_fixed | by apply GRV_reachable_fixed]. Qed.

(** X8: a frame of MyTestPass with a scene returns after two calls: the
    clear, to opaque black, depth 1 and stencil 0, of a frame buffer made
    for this frame whose one colour target is the "output" texture of the
    frame, and the rasterization of the scene with the graphics state of
    the pass, which now holds that frame buffer, the program of the pass
    and the wireframe rasterizer state, with the program vars the pass had
    and the wireframe state as both rasterizer states. *)
Theorem X8_draw_into_output rd s scene :
  MyTestPass.reachable s →
  mpScene s = Some scene →
  let o := MyTestPass.execute rd s in
  ∃ fbo gs vars,
    mpVars s = Some vars ∧
    o = Returned tt (state_of o)
          [ClearFbo fbo (0, 0, 0, 1)%float 1.0%float 0;
           Rasterize scene gs (vars_id vars) (kWireframe, kWireframe)] ∧
    fbo_id fbo = next_id (mpDevice s) ∧
    colorTargets fbo = [getTexture rd "output"] ∧
    gs_fbo gs = Some fbo ∧
    gs_program gs = Some (prog_id (mpProgram s)) ∧
    gs_rasterizerState gs = Some kWireframe ∧
    mpGraphicsState (state_of o) = gs.
Proof.
  intros Hreach Hsc o. subst o. unfold MyTestPass.execute.
  destruct (mpVars s) as [v|] eqn:Hv;
    [|destruct (pwf_vars _ (MTP_reachable_wf _ Hreach)); [congruence|done]].
  destruct (MTP_reachable_fixed _ Hreach) as [_ Hp Hg Hr].
  destruct (drawPipeline_spec rd s) as (_ & _ & _ & _ & _ & Ho).
  rewrite Hsc, Hv in Ho.
  destruct (drawPipeline_members rd s) as (_ & Hgs & _).
  destruct (GraphicsState_setFbo_spec (targetFbo rd s) (mpGraphicsState s))
    as (_ & Hgp & Hgr & Hgf).
  exists (targetFbo rd s), (GraphicsState_setFbo (targetFbo rd s) (mpGraphicsState s)), v.
  split_and!; try done.
  - rewrite Ho at 1. unfold clear_target, rasterize_scene. by rewrite Hr.
  - by rewrite Hgp.
  - by rewrite Hgr.
Qed.

(** X9: the raster passes bind one shader variable only.  At any point of
    the life of a pass its program vars hold no binding at all or only
    [PerFrameCB.gColor], bound to (0, 1, 0, 1); after a frame with a scene
    they hold that binding. *)
Theorem X9_raster_binds_colour_only rd s1 s2 :
  MyTestPass.reachable s1 →
  GuidedRayViz.reachable s2 →
  (∀ v, mpVars s1 = Some v →
        vars_bindings v = ∅ ∨ vars_bindings v = {[ kColorVar := kGreen ]}) ∧
  (∀ v, mpVars (GuidedRayViz.pipeline s2) = Some v →
        vars_bindings v = ∅ ∨ vars_bindings v = {[ kColorVar := kGreen ]}) ∧
  (mpScene s1 ≠ None →
   ∃ v, mpVars (state_of (MyTestPass.execute rd s1)) = Some v ∧
        vars_bindings v = {[ kColorVar := kGreen ]}) ∧
  (mpScene (GuidedRayViz.pipeline s2) ≠ None →
   returns (GuidedRayViz.execute rd s2) = true →
   ∃ v, mpVars (GuidedRayViz.pipeline (state_of (GuidedRayViz.execute rd s2))) = Some v ∧
        vars_bindings v = {[ kColorVar := kGreen ]}).
Proof.
  intros H1 H2.
  assert (∀ v, mpVars s1 = Some v →
            vars_bindings v = ∅ ∨ vars_bindings v = {[ kColorVar := kGreen ]}) as Hc1.
  { clear H2. induction H1 as [pDevice | s scenes pScene _ IH | s rd' _ IH _].
    - destruct pDevice. by intros v [=].
    - intros v Hv. left. by apply (setScenePipeline_colour scenes pScene s).
    - intros v Hv. by apply (drawPipeline_colour rd' s IH). }
  assert (∀ v, mpVars (GuidedRayViz.pipeline s2) = Some v →
            vars_bindings v = ∅ ∨ vars_bindings v = {[ kColorVar := kGreen ]}) as Hc2.
  { clear H1 Hc1. induction H2 as [pDevice | s scenes pScene _ IH | s rd' _ IH _].
    - destruct pDevice. by intros v [=].
    - rewrite GRV_setScene_spec. cbn. rewrite pipeline_set_pipeline.
      intros v Hv. left. by apply (setScenePipeline_colour scenes pScene _ _ Hv).
    - destruct (GRV_execute_pipeline rd' s) as [-> | ->]; [done|].
      intros v Hv. by apply (drawPipeline_colour rd' _ IH). }
  split_and!; [done | done | |].
  - intros Hsc. unfold MyTestPass.execute.
    pose proof (drawPipeline_colour rd s1 Hc1) as Hcol.
    destruct (drawPipeline_members rd s1) as (_ & _ & Hvars).
    destruct (mpVars s1) as [v|] eqn:Hv;
      [|exfalso; by apply (pwf_vars _ (MTP_reachable_wf _ H1))].
    destruct (mpScene s1) eqn:Hscene; [|done]. cbn in Hvars.
    eexists. split; [exact Hvars|]. by apply (Hcol _ Hvars).
  - intros Hsc Hret.
    pose proof (drawPipeline_colour rd (GuidedRayViz.pipeline s2) Hc2) as Hcol.
    destruct (drawPipeline_members rd (GuidedRayViz.pipeline s2)) as (_ & _ & Hvars).
    destruct (mpScene (GuidedRayViz.pipeline s2)) as [scene|] eqn:Hscene; [|done].
    destruct (mpVars (GuidedRayViz.pipeline s2)) as [v|] eqn:Hv;
      [|exfalso; apply (pwf_vars _ (GRV_reachable_wf _ H2)); [congruence|done]].
    destruct (GRV_execute_scene rd s2 scene v Hscene Hv) as (_ & _ & Hpipe & _).
    rewrite (Hpipe Hret). cbn in Hvars.
    eexists. split; [exact Hvars|]. by apply (Hcol _ Hvars).
Qed.

(** X10: a raster pass never replaces its program and never removes a
    shader define.  Every [setScene] and every [execute] of MyTestPass and
    of GuidedRayViz leads to a later state of the pipeline, and in every
    later state the program is the same object with the same description
    and every define it had is still set. *)
Theorem X10_raster_defines_stay p p' :
  pipeline_later p p' →
  (prog_id (mpProgram p') = prog_id (mpProgram p) ∧
   prog_desc (mpProgram p') = prog_desc (mpProgram p) ∧
   ∀ k, is_Some (prog_defines (mpProgram p) !! k) →
        is_Some (prog_defines (mpProgram p') !! k)) ∧
  (∀ scenes pScene, pipeline_later p (state_of (MyTestPass.setScene scenes pScene p'))) ∧
  (∀ rd, pipeline_later p (state_of (MyTestPass.execute rd p'))) ∧
  (∀ scenes pScene s, GuidedRayViz.pipeline s = p' →
     pipeline_later p (GuidedRayViz.pipeline (state_of (GuidedRayViz.setScene scenes pScene s)))) ∧
  (∀ rd s, GuidedRayViz.pipeline s = p' →
     pipeline_later p (GuidedRayViz.pipeline (state_of (GuidedRayViz.execute rd s)))).
Proof.
  intros Hlater. split; [by apply pipeline_later_program|]. split_and!.
  - intros scenes pScene. by apply later_setScene.
  - intros rd. by apply later_draw.
  - intros scenes pScene s <-. rewrite GRV_setScene_spec. cbn.
    rewrite pipeline_set_pipeline. by apply later_setScene.
  - intros rd s <-. destruct (GRV_execute_pipeline rd s) as [-> | ->]; [done|].
    by apply later_draw.
Qed.

End RasterPasses.

Section RayLines.
Context {host : HostApi}.
Import GuidedRayViz.

Lemma printRay_exact rayNodes i r s :
  rayNodes !! i = Some r →
  printRay rayNodes i s = Returned tt s (ray_lines i r).
Proof.
  intros Hr. unfold printRay, ray_lines, mbind, M_mbind, M_bind, emit. rewrite Hr.
  by destruct r as [[[x1 y1] z1] [[x2 y2] z2] [[cr cg] cb]].
Qed.

Lemma printRays_exact rayNodes s n : ∀ a,
  (a + n ≤ length rayNodes)%nat →
  for_each (seq a n) (printRay rayNodes) s = Returned tt s (rays_lines rayNodes a n).
Proof.
  induction n as [|n IH]; intros a Hle; [done|].
  destruct (lookup_lt_is_Some_2 rayNodes a) as [r Hr]; [lia|].
  cbn [for_each seq]. unfold mbind, M_mbind, M_bind.
  rewrite (printRay_exact _ _ _ _ Hr), IH by lia.
  unfold rays_lines. cbn. by rewrite Hr.
Qed.

Lemma rays_lines_length records n : ∀ a,
  (a + n ≤ length records)%nat → length (rays_lines records a n) = (4 * n)%nat.
Proof.
  induction n as [|n IH]; intros a Hle; [done|].
  destruct (lookup_lt_is_Some_2 records a) as [r Hr]; [lia|].
  unfold rays_lines in *. cbn. rewrite Hr, length_app, IH by lia.
  destruct r as [[[x1 y1] z1] [[x2 y2] z2] [[cr cg] cb]]. cbn. lia.
Qed.

(** X11: when the recompute flag is set, the buffer handle is present and
    the buffer gives the [count] records asked for, [execute] on a pass
    with a scene returns after these calls: the read of [count] records
    from element 0, then for each record in turn four printed lines (its
    index, then the three coordinates of its first position, of its second
    position and of its colour), then the clear and the draw. *)
Theorem X11_rays_are_printed_in_order rd s scene buffer :
  reachable s →
  mpScene (pipeline s) = Some scene →
  gComputeRays (getDictionary rd) = true →
  gGuidedRays (getDictionary rd) = Some buffer →
  let count := gGuidedRaysSize (getDictionary rd) in
  let records := getElements buffer 0 count in
  (N.to_nat count ≤ length records)%nat →
  let o := execute rd s in
  ∃ vars,
    mpVars (pipeline s) = Some vars ∧
    o = Returned tt (state_of o)
          (GetElements buffer 0 count ::
           rays_lines records 0 (N.to_nat count) ++
           [clear_target rd (pipeline s); rasterize_scene rd (pipeline s) scene vars]) ∧
    length (rays_lines records 0 (N.to_nat count)) = (4 * N.to_nat count)%nat.
Proof.
  intros Hreach Hsc Hc Hb count records Hle o. subst o count records.
  destruct (mpVars (pipeline s)) as [v|] eqn:Hv;
    [|destruct (pwf_vars _ (GRV_reachable_wf _ Hreach)); [congruence|done]].
  exists v. split; [done|].
  pose proof (drawPipeline_spec rd (pipeline s)) as Hdraw. cbv zeta in Hdraw.
  rewrite Hsc, Hv in Hdraw. destruct Hdraw as (_ & _ & _ & _ & _ & Hdraw).
  destruct s as [sz rays comp rs p]. cbn in Hsc, Hv, Hdraw |- *.
  split.
  - unfold execute, mbind, M_mbind, M_bind, get, modify, when. cbn.
    rewrite Hsc. cbn. rewrite Hc, Hb. cbn.
    unfold generateRaysGeometry, mbind, M_mbind, M_bind, get, emit. cbn.
    rewrite printRays_exact by done. cbn.
    rewrite on_pipeline_drawPipeline. cbn. rewrite Hdraw. cbn. done.
  - by apply rays_lines_length.
Qed.

End RayLines.

Section RasterFrames.

Lemma cleared_fbos_app tr1 tr2 :
  cleared_fbos (tr1 ++ tr2) = cleared_fbos tr1 ++ cleared_fbos tr2.
Proof. apply omap_app. Qed.

Lemma draws_app tr1 tr2 : draws (tr1 ++ tr2) = draws tr1 ++ draws tr2.
Proof. apply omap_app. Qed.

Lemma MTP_frames rds : ∀ s,
  pipeline_wf s →
  let o := for_each rds MyTestPass.execute s in
  returns o = true ∧
  cleared_fbos (trace_of o) = frame_targets (next_id (mpDevice s)) rds ∧
  length (draws (trace_of o)) = (if is_null (mpScene s) then 0 else length rds)%nat ∧
  next_id (mpDevice (state_of o)) = (next_id (mpDevice s) + length rds)%nat ∧
  mpScene (state_of o) = mpScene s ∧
  mpProgram (state_of o) = mpProgram s ∧
  vars_id <$> mpVars (state_of o) = vars_id <$> mpVars s.
Proof.
  induction rds as [|rd rds IH]; intros s Hwf.
  { cbn. split_and!; first [done | by destruct (is_null (mpScene s)) | lia]. }
  pose proof (drawPipeline_wf rd s Hwf) as Hwf1.
  destruct (drawPipeline_spec rd s) as (Hsc & Hprog & Hvid & _ & Hdev & Ho).
  set (s1 := state_of (drawPipeline rd s)) in *.
  destruct (IH s1 Hwf1) as (Hret & Hclr & Hlen & Hdev' & Hsc' & Hprog' & Hvid').
  assert (∃ tr1, MyTestPass.execute rd s = Returned tt s1 tr1 ∧
                 cleared_fbos tr1 = [targetFbo rd s] ∧
                 length (draws tr1) = (if is_null (mpScene s) then 0 else 1)%nat)
    as (tr1 & Hexec & Hclr1 & Hlen1).
  { unfold MyTestPass.execute. destruct (mpScene s) as [scene|] eqn:Hscene.
    - destruct (mpVars s) as [v|] eqn:Hv;
        [|destruct (pwf_vars _ Hwf); [congruence|done]].
      by eexists.
    - by eexists. }
  cbn [for_each]. unfold mbind, M_mbind, M_bind. rewrite Hexec.
  destruct (for_each rds MyTestPass.execute s1) as [[] s2 tr2 | w s2 tr2 | x s2 tr2];
    cbn [returns trace_of state_of] in *; [|done..].
  split_and!; try done; try congruence.
  - rewrite cleared_fbos_app, Hclr1, Hclr, Hdev. unfold frame_targets. cbn.
    f_equal; [unfold targetFbo; by rewrite Nat.add_0_r|].
    apply imap_ext. intros i rd' _. cbn. f_equal. lia.
  - rewrite draws_app, length_app, Hlen1, Hlen, Hsc. destruct (mpScene s); cbn; lia.
  - rewrite Hdev', Hdev. cbn. lia.
Qed.

(** X12: consecutive frames of MyTestPass all return, and each one clears a
    frame buffer of its own: the i-th frame makes the i-th object after the
    ones the device had made, with the "output" texture of that frame as
    its one colour target.  With a scene every frame draws once, without a
    scene no frame draws; the frames create nothing else, and keep the
    scene, the program and the program vars of the pass. *)
Theorem X12_a_frame_buffer_per_frame rds s :
  MyTestPass.reachable s →
  let o := for_each rds MyTestPass.execute s in
  returns o = true ∧
  cleared_fbos (trace_of o) =
    imap (λ i rd, {| fbo_id := (next_id (mpDevice s) + i)%nat;
                     colorTargets := [getTexture rd "output"] |}) rds ∧
  length (draws (trace_of o)) = (if is_null (mpScene s) then 0 else length rds)%nat ∧
  next_id (mpDevice (state_of o)) = (next_id (mpDevice s) + length rds)%nat ∧
  mpScene (state_of o) = mpScene s ∧
  mpProgram (state_of o) = mpProgram s ∧
  vars_id <$> mpVars (state_of o) = vars_id <$> mpVars s.
Proof. intros Hreach. apply MTP_frames. by apply MTP_reachable_wf. Qed.

End RasterFrames.

(** * The further properties on the sample objects *)

Lemma sampleTest_reachable : MyTestPass.reachable sampleTest.
Proof. apply MyTestPass.reach_setScene, MyTestPass.reach_construct. Qed.

(** X1 on the sample pass bound to scene 0: the first frame binds the
    output colour to texture 100 and [gNodes] to the new density buffer. *)
Lemma X1_frame_binds_resources_witness :
  ∃ v' nodes,
    FocalGuiding.pVars
      (FocalGuiding.mTracer
         (state_of (FocalGuiding.execute (host := sampleHost) sampleScenes
                      (sampleFrame false 0) sampleBound))) = Some v' ∧
    vars_bindings (FocalGuiding.rt_vars v') !! ["gOutputColor"]
      = Some (VTexture (Some 100%nat)) ∧
    vars_bindings (FocalGuiding.rt_vars v') !! ["gNodes"]
      = Some (VBuffer (Some (buf_id nodes))).
Proof.
  destruct (X1_frame_binds_resources (host := sampleHost) sampleScenes (sampleFrame false 0)
              sampleBound 0%nat sampleBound_reachable eq_refl eq_refl)
    as (v' & nodes & Hv & _ & Hc & _ & _ & _ & Hn).
  exists v', nodes. split; [exact Hv|]. split; [|exact Hn].
  refine (Hc {| name := "color"; texname := "gOutputColor";
                desc := "Output color (sum of direct and indirect)";
                optional := false; format := RGBA32Float |} _).
  do 2 apply list_elem_of_further. apply list_elem_of_here.
Defined.

(** X2 on the sample pass bound to scene 0, whose scene uses emissive
    lights and has a pinhole camera: three calls. *)
Lemma X2_frame_calls_witness :
  ∃ p nodes,
    trace_of (FocalGuiding.execute (host := sampleHost) sampleScenes
                (sampleFrame false 0) sampleBound) =
      [GetLightCollection 0%nat;
       DictionarySet "gNodes" (Some (buf_id nodes));
       Raytrace 0%nat (prog_id p) (FocalGuiding.vars_for sampleBound) (640, 480, 1)].
Proof.
  destruct (X2_frame_calls (host := sampleHost) sampleScenes (sampleFrame false 0)
              sampleBound 0%nat sampleBound_reachable eq_refl eq_refl
              (or_intror eq_refl))
    as (p & nodes & _ & _ & Htr & _).
  exists p, nodes. exact Htr.
Defined.

(** X3 on the sample pass bound to scene 0, which has no program vars yet:
    the first frame makes the density buffer, of 16 nodes. *)
Lemma X3_density_buffer_life_witness :
  ∃ nodes,
    FocalGuiding.mNodes
      (state_of (FocalGuiding.execute (host := sampleHost) sampleScenes
                   (sampleFrame false 0) sampleBound)) = Some nodes ∧
    buf_elementCount nodes = 16 ∧
    buf_initData nodes = FocalGuiding.initDensities.
Proof.
  destruct (proj2 (proj2 (X3_density_buffer_life (host := sampleHost) sampleScenes
              (sampleFrame false 0) sampleBound 0%nat sampleBound_reachable eq_refl eq_refl)))
    as (nodes & Hn & _ & Hc & _ & _ & Hi).
  exists nodes. split; [exact Hn|]. split; [exact Hc | exact Hi].
Defined.


(** X6 on the sample pass bound to scene 0, for two frames. *)
Lemma X6_steady_frames_witness :
  ∃ p,
    draws (trace_of (for_each [sampleFrame false 0; sampleFrame true 2]
                       (FocalGuiding.execute (host := sampleHost) sampleScenes) sampleBound)) =
      [Raytrace 0%nat (prog_id p) (FocalGuiding.vars_for sampleBound) (640, 480, 1);
       Raytrace 0%nat (prog_id p) (FocalGuiding.vars_for sampleBound) (640, 480, 1)].
Proof.
  assert (@assertsEnabled sampleHost = false ∨
          Forall (λ rd, FocalGuiding.dims_ok rd = true)
            [sampleFrame false 0; sampleFrame true 2]) as Hdims
    by (right; repeat constructor).
  destruct (X6_steady_frames (host := sampleHost) sampleScenes
              [sampleFrame false 0; sampleFrame true 2] sampleBound 0%nat
              sampleBound_reachable eq_refl eq_refl Hdims)
    as (p & _ & _ & Hd & _).
  exists p. exact Hd.
Defined.

(** X7 on the sample raster passes bound to scene 0. *)
Lemma X7_raster_pipeline_fixed_witness :
  mpRasterState sampleTest = kWireframe ∧
  gs_program (mpGraphicsState (GuidedRayViz.pipeline sampleViz))
    = Some (prog_id (mpProgram (GuidedRayViz.pipeline sampleViz))).
Proof.
  destruct (X7_raster_pipeline_fixed (host := sampleHost) sampleTest sampleViz
              sampleTest_reachable sampleViz_reachable) as [H1 H2].
  split; [exact (fixed_raster _ _ H1) | exact (fixed_program _ _ H2)].
Defined.

(** X8 on the sample MyTestPass bound to scene 0. *)
Lemma X8_draw_into_output_witness :
  ∃ fbo gs vars,
    trace_of (MyTestPass.execute (sampleFrame false 0) sampleTest) =
      [ClearFbo fbo (0, 0, 0, 1)%float 1.0%float 0;
       Rasterize 0%nat gs (vars_id vars) (kWireframe, kWireframe)] ∧
    colorTargets fbo = [Some 101%nat] ∧ gs_fbo gs = Some fbo.
Proof.
  destruct (X8_draw_into_output (sampleFrame false 0) sampleTest 0%nat
              sampleTest_reachable eq_refl)
    as (fbo & gs & vars & _ & Ho & _ & Hc & Hf & _).
  exists fbo, gs, vars. split; [exact (f_equal trace_of Ho)|]. split; [exact Hc | exact Hf].
Defined.

(** X9 on the sample raster passes bound to scene 0. *)
Lemma X9_raster_binds_colour_only_witness :
  ∃ v, mpVars (state_of (MyTestPass.execute (sampleFrame false 0) sampleTest)) = Some v ∧
       vars_bindings v = {[ kColorVar := kGreen ]}.
Proof.
  refine (proj1 (proj2 (proj2 (X9_raster_binds_colour_only (host := sampleHost)
            (sampleFrame false 0) sampleTest sampleViz
            sampleTest_reachable sampleViz_reachable))) _).
  discriminate.
Defined.

(** X10 from a new MyTestPass to the sample one bound to scene 0. *)
Lemma X10_raster_defines_stay_witness :
  prog_id (mpProgram sampleTest) = prog_id (mpProgram (MyTestPass.construct sampleDevice)).
Proof.
  refine (proj1 (proj1 (X10_raster_defines_stay (host := sampleHost)
            (MyTestPass.construct sampleDevice) sampleTest _))).
  apply (later_setScene _ _ sampleScenes (Some 0%nat)), later_now.
Defined.

(** X11 on the sample GuidedRayViz bound to scene 0, for two rays. *)
Lemma X11_rays_are_printed_in_order_witness :
  ∃ vars,
    trace_of (GuidedRayViz.execute (host := sampleHost) (sampleFrame true 2) sampleViz) =
      GetElements 50%nat 0 2 ::
      rays_lines [sampleLine; sampleLine] 0 2 ++
      [clear_target (sampleFrame true 2) (GuidedRayViz.pipeline sampleViz);
       rasterize_scene (sampleFrame true 2) (GuidedRayViz.pipeline sampleViz) 0%nat vars].
Proof.
  destruct (X11_rays_are_printed_in_order (host := sampleHost) (sampleFrame true 2) sampleViz
              0%nat 50%nat sampleViz_reachable eq_refl eq_refl eq_refl (le_n 2))
    as (vars & _ & Ho & _).
  exists vars. exact (f_equal trace_of Ho).
Defined.

(** X12 on the sample MyTestPass bound to scene 0, for two frames. *)
Lemma X12_a_frame_buffer_per_frame_witness :
  cleared_fbos (trace_of (for_each [sampleFrame false 0; sampleFrame true 2]
                            MyTestPass.execute sampleTest)) =
    [ {| fbo_id := 3%nat; colorTargets := [Some 101%nat] |};
      {| fbo_id := 4%nat; colorTargets := [Some 101%nat] |} ].
Proof.
  exact (proj1 (proj2 (X12_a_frame_buffer_per_frame
                         [sampleFrame false 0; sampleFrame true 2] sampleTest
                         sampleTest_reachable))).
Defined.

